(** * Assistant automation workflow tools and AI-field tasks (baserow)

    A shallow embedding of
    - [baserow_enterprise/assistant/tools/automation/types/node.py]
      (the creation schemas and their translation to ORM service dicts),
    - [baserow_enterprise/assistant/tools/automation/utils.py]
      ([get_workflow], [create_workflow]),
    and of the AI-field background task exercised by
    [baserow_premium_tests/fields/test_ai_field_tasks.py].

    Python values of type [Any] are an inductive [pyval]; a [dict] built by
    a literal or by pydantic's [model_dump] is an insertion-ordered
    association list; the [node_mapping] dict of [create_workflow], whose keys
    are both [str] refs and [int] ORM ids, is a [gmap] over a two-constructor
    key type.  Exceptions are values of [exn]; the host services (workflow
    service, node service, node type registry) are section variables that
    thread an abstract database state. *)

From Stdlib Require Import ZArith List Bool.
From Stdlib Require Import Floats.PrimFloat.
From stdpp Require Import base option list strings gmap fin_maps.

Open Scope Z_scope.
Open Scope string_scope.
Open Scope list_scope.

(** ** Python values *)

Set Warnings "-register-all".

Inductive pyval : Type :=
| PNone
| PBool (b : bool)
| PInt (z : Z)
| PFloat (f : float)
| PStr (s : string)
| PList (l : list pyval)
| PDict (d : list (string * pyval)).

(** [dict[str, Any]], in insertion order. *)
Definition pydict : Type := list (string * pyval).

(** [d.get(k)] *)
Fixpoint dict_get (k : string) (d : pydict) : option pyval :=
  match d with
  | [] => None
  | (k', v) :: d' => if String.eqb k' k then Some v else dict_get k d'
  end.

Definition dict_keys (d : pydict) : list string := map fst d.

(** [Optional[int]] dumped by [model_dump]. *)
Definition opt_int (o : option Z) : pyval :=
  match o with Some z => PInt z | None => PNone end.

(** [Optional[float]] *)
Definition opt_float (o : option float) : pyval :=
  match o with Some f => PFloat f | None => PNone end.

(** The f-string [f"'{s}'"]. *)
Definition quoted (s : string) : string := "'" +:+ s +:+ "'".

(** [s or ''] for an [Optional[str]]. *)
Definition or_empty (o : option string) : string :=
  match o with Some s => s | None => "" end.

(** ** Exceptions *)

Inductive exn : Type :=
| ValueError (msg : string)
| AttributeError (msg : string)
| GenerativeAIPromptError (msg : string)
| ServiceError (name : string).

Definition result (A : Type) : Type := exn + A.
Abbreviation Ok x := (inr x) (only parsing).
Abbreviation Raise e := (inl e) (only parsing).

(** ** node.py: schemas *)

Module Interval.
Inductive t := MINUTE | HOUR | DAY | WEEK | MONTH.
Definition name (i : t) : string :=
  match i with
  | MINUTE => "MINUTE" | HOUR => "HOUR" | DAY => "DAY"
  | WEEK => "WEEK" | MONTH => "MONTH"
  end.
End Interval.

Module PeriodicTriggerSettings.
Record t := mk {
  interval : Interval.t;
  minute : option Z;
  hour : option Z;
  day_of_week : option Z;
  day_of_month : option Z
}.
(** pydantic's [model_dump]: every declared field, in declaration order. *)
Definition model_dump (self : t) : pydict :=
  [ ("interval", PStr (Interval.name (interval self)));
    ("minute", opt_int (minute self));
    ("hour", opt_int (hour self));
    ("day_of_week", opt_int (day_of_week self));
    ("day_of_month", opt_int (day_of_month self)) ].
End PeriodicTriggerSettings.

Module RowsTriggersSettings.
Record t := mk { table_id : Z }.
Definition model_dump (self : t) : pydict :=
  [ ("table_id", PInt (table_id self)) ].
End RowsTriggersSettings.

Module TriggerType.
Inductive t := periodic | http_trigger | rows_updated | rows_created | rows_deleted.
Definition name (ty : t) : string :=
  match ty with
  | periodic => "periodic"
  | http_trigger => "http_trigger"
  | rows_updated => "rows_updated"
  | rows_created => "rows_created"
  | rows_deleted => "rows_deleted"
  end.
End TriggerType.

(** [x in [a, b, c]] on strings. *)
Definition str_in (x : string) (l : list string) : bool :=
  existsb (String.eqb x) l.

Module TriggerNodeCreate.
Record t := mk {
  label : string;
  type_ : TriggerType.t;
  ref : string;
  periodic_interval : option PeriodicTriggerSettings.t;
  rows_triggers_settings : option RowsTriggersSettings.t
}.
Definition type (self : t) : string := TriggerType.name (type_ self).

Definition to_orm_service_dict (self : t) : pydict :=
  match String.eqb (type self) "periodic", periodic_interval self with
  | true, Some p => PeriodicTriggerSettings.model_dump p
  | _, _ =>
    match str_in (type self) ["rows_created"; "rows_updated"; "rows_deleted"],
          rows_triggers_settings self with
    | true, Some r => RowsTriggersSettings.model_dump r
    | _, _ => []
    end
  end.
End TriggerNodeCreate.

Module RouterEdgeCreate.
(** [_uid] is drawn once ([uuid4]) when the branch object is built and
    never changes afterwards: a plain field here. *)
Record t := mk {
  label : string;
  condition : string;
  _uid : string
}.
Definition to_orm_service_dict (self : t) : pydict :=
  [ ("uid", PStr (_uid self)); ("label", PStr (label self)) ].
End RouterEdgeCreate.

Module RouterNodeCreate.
Record t := mk {
  label : string;
  edges : list RouterEdgeCreate.t;
  ref : string;
  previous_node_ref : string;
  router_edge_label : string
}.
Definition type (_ : t) : string := "router".
Definition to_orm_service_dict (self : t) : pydict :=
  [ ("edges",
     PList (map (fun branch => PDict (RouterEdgeCreate.to_orm_service_dict branch))
                (edges self))) ].
End RouterNodeCreate.

Module BodyType.
Inductive t := plain | html.
Definition name (b : t) : string :=
  match b with plain => "plain" | html => "html" end.
End BodyType.

Module SendEmailActionCreate.
Record t := mk {
  label : string;
  to_emails : string;
  cc_emails : option string;
  bcc_emails : option string;
  subject : string;
  body : string;
  body_type : BodyType.t;
  ref : string;
  previous_node_ref : string;
  router_edge_label : string
}.
Definition type (_ : t) : string := "smtp_email".
Definition to_orm_service_dict (self : t) : pydict :=
  [ ("to_email", PStr (quoted (to_emails self)));
    ("cc_email", PStr (quoted (or_empty (cc_emails self))));
    ("bcc_email", PStr (quoted (or_empty (bcc_emails self))));
    ("subject", PStr (quoted (subject self)));
    ("body", PStr (quoted (body self)));
    ("body_type", PStr (quoted (BodyType.name (body_type self)))) ].
End SendEmailActionCreate.

(** The mixin [RowActionService]: its only input is the [table_id]
    attribute of the class it is mixed into. *)
Module RowActionService.
Definition to_orm_service_dict (table_id : Z) : pydict :=
  [ ("table_id", PInt table_id) ].
End RowActionService.

Module CreateRowActionCreate.
Record t := mk {
  label : string;
  table_id : Z;
  values : pydict;
  ref : string;
  previous_node_ref : string;
  router_edge_label : string
}.
Definition type (_ : t) : string := "create_row".
Definition to_orm_service_dict (self : t) : pydict :=
  RowActionService.to_orm_service_dict (table_id self).
End CreateRowActionCreate.

Module UpdateRowActionCreate.
Record t := mk {
  label : string;
  table_id : Z;
  row : string;
  values : pydict;
  ref : string;
  previous_node_ref : string;
  router_edge_label : string
}.
Definition type (_ : t) : string := "update_row".
Definition to_orm_service_dict (self : t) : pydict :=
  RowActionService.to_orm_service_dict (table_id self).
End UpdateRowActionCreate.

Module DeleteRowActionCreate.
Record t := mk {
  label : string;
  table_id : Z;
  row : string;
  ref : string;
  previous_node_ref : string;
  router_edge_label : string
}.
Definition type (_ : t) : string := "delete_row".
Definition to_orm_service_dict (self : t) : pydict :=
  RowActionService.to_orm_service_dict (table_id self).
End DeleteRowActionCreate.

Module OutputType.
Inductive t := text | choice.
Definition name (o : t) : string :=
  match o with text => "text" | choice => "choice" end.
End OutputType.

Module AiAgentNodeCreate.
Record t := mk {
  label : string;
  output_type : OutputType.t;
  choices : option (list string);
  temperature : option float;
  prompt : string;
  ref : string;
  previous_node_ref : string;
  router_edge_label : string
}.
Definition type (_ : t) : string := "ai_agent".
Definition to_orm_service_dict (self : t) : pydict :=
  [ ("ai_choices",
     if String.eqb (OutputType.name (output_type self)) "choice"
     then PList (map PStr (match choices self with Some l => l | None => [] end))
     else PList []);
    ("ai_temperature", opt_float (temperature self));
    ("ai_prompt", PStr (quoted (prompt self)));
    ("ai_output_type", PStr (OutputType.name (output_type self))) ].
End AiAgentNodeCreate.

(** [AnyNodeCreate]: the union discriminated by [type]. *)
Inductive AnyNodeCreate : Type :=
| Router (n : RouterNodeCreate.t)
| SendEmail (n : SendEmailActionCreate.t)
| CreateRow (n : CreateRowActionCreate.t)
| UpdateRow (n : UpdateRowActionCreate.t)
| DeleteRow (n : DeleteRowActionCreate.t)
| AiAgent (n : AiAgentNodeCreate.t).

Module Node.
(** Attribute access and method dispatch on a member of the union. *)
Definition type (n : AnyNodeCreate) : string :=
  match n with
  | Router x => RouterNodeCreate.type x
  | SendEmail x => SendEmailActionCreate.type x
  | CreateRow x => CreateRowActionCreate.type x
  | UpdateRow x => UpdateRowActionCreate.type x
  | DeleteRow x => DeleteRowActionCreate.type x
  | AiAgent x => AiAgentNodeCreate.type x
  end.
Definition label (n : AnyNodeCreate) : string :=
  match n with
  | Router x => RouterNodeCreate.label x
  | SendEmail x => SendEmailActionCreate.label x
  | CreateRow x => CreateRowActionCreate.label x
  | UpdateRow x => UpdateRowActionCreate.label x
  | DeleteRow x => DeleteRowActionCreate.label x
  | AiAgent x => AiAgentNodeCreate.label x
  end.
Definition ref (n : AnyNodeCreate) : string :=
  match n with
  | Router x => RouterNodeCreate.ref x
  | SendEmail x => SendEmailActionCreate.ref x
  | CreateRow x => CreateRowActionCreate.ref x
  | UpdateRow x => UpdateRowActionCreate.ref x
  | DeleteRow x => DeleteRowActionCreate.ref x
  | AiAgent x => AiAgentNodeCreate.ref x
  end.
Definition previous_node_ref (n : AnyNodeCreate) : string :=
  match n with
  | Router x => RouterNodeCreate.previous_node_ref x
  | SendEmail x => SendEmailActionCreate.previous_node_ref x
  | CreateRow x => CreateRowActionCreate.previous_node_ref x
  | UpdateRow x => UpdateRowActionCreate.previous_node_ref x
  | DeleteRow x => DeleteRowActionCreate.previous_node_ref x
  | AiAgent x => AiAgentNodeCreate.previous_node_ref x
  end.
Definition router_edge_label (n : AnyNodeCreate) : string :=
  match n with
  | Router x => RouterNodeCreate.router_edge_label x
  | SendEmail x => SendEmailActionCreate.router_edge_label x
  | CreateRow x => CreateRowActionCreate.router_edge_label x
  | UpdateRow x => UpdateRowActionCreate.router_edge_label x
  | DeleteRow x => DeleteRowActionCreate.router_edge_label x
  | AiAgent x => AiAgentNodeCreate.router_edge_label x
  end.
Definition to_orm_service_dict (n : AnyNodeCreate) : pydict :=
  match n with
  | Router x => RouterNodeCreate.to_orm_service_dict x
  | SendEmail x => SendEmailActionCreate.to_orm_service_dict x
  | CreateRow x => CreateRowActionCreate.to_orm_service_dict x
  | UpdateRow x => UpdateRowActionCreate.to_orm_service_dict x
  | DeleteRow x => DeleteRowActionCreate.to_orm_service_dict x
  | AiAgent x => AiAgentNodeCreate.to_orm_service_dict x
  end.
End Node.

(** ** ORM objects

    Rows of the host application's tables.  The code under study reads
    nothing of them but the attributes below. *)

Module User.
Record t := mk { id : Z }.
End User.

Module Workspace.
Record t := mk { id : Z }.
End Workspace.

Module Automation.
(** [workspace_id] is a nullable foreign key. *)
Record t := mk { id : Z; workspace_id : option Z }.
End Automation.

Module AutomationWorkflow.
Record t := mk { id : Z; name : string; automation : Automation.t }.
End AutomationWorkflow.

Module AutomationNode.
Record t := mk { id : Z }.
End AutomationNode.

Module NodeType.
(** What [automation_node_type_registry.get] hands back. *)
Record t := mk { type : string }.
End NodeType.

(** Modelled from the spec: [WorkflowCreate] is declared in
    [types/workflow.py], which is not part of the sources at hand; its three
    attributes are the ones [create_workflow] reads and the tests pass. *)
Module WorkflowCreate.
Record t := mk {
  name : string;
  trigger : TriggerNodeCreate.t;
  nodes : list AnyNodeCreate
}.
End WorkflowCreate.

(** ** The node mapping

    [node_mapping] is keyed by the client refs ([str]) and by the ORM ids
    ([int]); in Python a [str] never equals an [int], so the two kinds of
    key live side by side. *)

Inductive key : Type :=
| KStr (s : string)
| KInt (i : Z).

#[global] Instance key_eq_dec : EqDecision key.
Proof. solve_decision. Defined.

#[global] Instance key_countable : Countable key.
Proof.
  refine (inj_countable'
            (fun k => match k with KStr s => inl s | KInt i => inr i end)
            (fun x => match x with inl s => KStr s | inr i => KInt i end) _).
  by intros [].
Defined.

(** The second component of a mapping entry: the schema object the ORM node
    was created from, a trigger or a member of [AnyNodeCreate]. *)
Inductive NodeCreate : Type :=
| OfTrigger (t : TriggerNodeCreate.t)
| OfNode (n : AnyNodeCreate).

Module Schema.
Definition type (c : NodeCreate) : string :=
  match c with
  | OfTrigger t => TriggerNodeCreate.type t
  | OfNode n => Node.type n
  end.
Definition ref (c : NodeCreate) : string :=
  match c with
  | OfTrigger t => TriggerNodeCreate.ref t
  | OfNode n => Node.ref n
  end.
(** [c.edges]: only router nodes have the attribute. *)
Definition edges (c : NodeCreate) : option (list RouterEdgeCreate.t) :=
  match c with
  | OfNode (Router r) => Some (RouterNodeCreate.edges r)
  | _ => None
  end.
End Schema.

Abbreviation mapping := (gmap key (AutomationNode.t * NodeCreate)).

(** Truth value of a [str]. *)
Definition str_truthy (s : string) : bool := negb (String.eqb s "").

Module EdgeCreate.
Record t := mk {
  previous_node_ref : string;
  router_edge_label : string
}.

(** Every member of [AnyNodeCreate] inherits from [EdgeCreate]. *)
Definition of_node (n : AnyNodeCreate) : t :=
  mk (Node.previous_node_ref n) (Node.router_edge_label n).

(** [next((edge._uid for edge in edges if edge.label == lbl), None)] *)
Fixpoint next_uid (edges : list RouterEdgeCreate.t) (lbl : string) : option string :=
  match edges with
  | [] => None
  | edge :: rest =>
    if String.eqb (RouterEdgeCreate.label edge) lbl
    then Some (RouterEdgeCreate._uid edge)
    else next_uid rest lbl
  end.

Definition to_orm_reference_node (self : t) (node_mapping : mapping)
  : result (Z * string) :=
  match node_mapping !! KStr (previous_node_ref self) with
  | None =>
    Raise (ValueError ("Previous node ref '" +:+ previous_node_ref self
                       +:+ "' not found in mapping"))
  | Some (previous_orm_node, previous_node_create) =>
    if str_truthy (router_edge_label self)
       && String.eqb (Schema.type previous_node_create) "router"
    then
      match Schema.edges previous_node_create with
      | None => Raise (AttributeError "edges")
      | Some edges =>
        match next_uid edges (router_edge_label self) with
        | None =>
          Raise (ValueError ("Branch label '" +:+ router_edge_label self
                             +:+ "' not found in previous router node"))
        | Some output => Ok (AutomationNode.id previous_orm_node, output)
        end
      end
    else Ok (AutomationNode.id previous_orm_node, "")
  end.
End EdgeCreate.

(** ** The AI field and its background task

    [baserow_premium.fields.tasks] and the AI field type are exercised by
    [test_ai_field_tasks.py] but are not among the sources at hand.  The
    definitions of this module are written from the specification and from
    what the tests set up and observe. *)

Module AiField.

(** Modelled from the spec: the prompt formulas the tests write, built
    from string literals, [get('fields.field_<id>')] and [concat]; the
    formula interpreter itself belongs to the host application. *)
Inductive formula : Type :=
| Lit (s : string)
| Get (field_id : Z)
| Concat (args : list formula).

(** Modelled from the spec: the cells of a row, field id to stored text. *)
Abbreviation cells := (gmap Z string).

(** Modelled from the spec: evaluation of a prompt formula against a row;
    a field the row has no value for gives the empty string. *)
Fixpoint resolve_formula (f : formula) (row : cells) : string :=
  match f with
  | Lit s => s
  | Get i => default "" (row !! i)
  | Concat args =>
    (fix go (l : list formula) : string :=
       match l with
       | [] => ""
       | a :: l' => resolve_formula a row +:+ go l'
       end) args
  end.

(** Modelled from the spec: a row as the signals carry it. *)
Record Row := mkRow { row_id : Z; row_cells : cells }.

(** Modelled from the spec: the attributes of an AI field the tests set and
    read. *)
Record AIField := mkField {
  id : Z;
  table_id : Z;
  ai_prompt : formula;
  ai_generative_ai_type : string;
  ai_auto_update : bool;
  ai_auto_update_user_id : option Z
}.

(** Modelled from the spec: a user, as far as the license check goes. *)
Record Account := mkAccount { has_active_premium_license : bool }.

(** Modelled from the spec: a table, its rows by id and the id the next
    created row gets. *)
Record Table := mkTable { next_row_id : Z; rows : gmap Z cells }.

(** Modelled from the spec: the two signals the tests patch, with the
    keyword arguments they inspect. *)
Inductive signal : Type :=
| rows_updated (rows : list Row) (updated_field_ids : gset Z)
| rows_ai_values_generation_error (rows : list Row) (field : AIField)
                                  (error_message : string).

(** Modelled from the spec: the arguments of one
    [generate_ai_values_for_rows.delay] call. *)
Abbreviation task_args := (Z * Z * list Z)%type.

(** Modelled from the spec: the part of the host state the task and the
    row-creation hook touch. *)
Record world := mkWorld {
  users : gmap Z Account;
  fields : list AIField;
  tables : gmap Z Table;
  signals : list signal;
  queue : list task_args
}.

(** Modelled from the spec: lookup of a field by id. *)
Definition get_field (field_id : Z) (w : world) : option AIField :=
  List.find (fun f => Z.eqb (id f) field_id) (fields w).

(** Modelled from the spec: the rows of a table with the given ids, in the
    order asked for. *)
Definition get_rows (t : Table) (row_ids : list Z) : list Row :=
  omap (fun i => mkRow i <$> rows t !! i) row_ids.

(** Modelled from the spec: a row with a value written to one column. *)
Definition set_cell (field_id : Z) (r : Row) (v : string) : Row :=
  mkRow (row_id r) (<[field_id := v]> (row_cells r)).

(** Modelled from the spec: writing updated rows back to the table. *)
Definition store_rows (t : Table) (rs : list Row) : Table :=
  mkTable (next_row_id t)
          (foldr (fun r m => <[row_id r := row_cells r]> m) (rows t) rs).

Section Task.

(** Modelled from the spec: the generative-AI backend a field is configured
    with, giving the output for a prompt or the message of the prompt error
    it raises. *)
Variable prompt : AIField -> string -> string + string.

(** Modelled from the spec: one backend call per row; the first error ends
    the run. *)
Fixpoint generate_values (field : AIField) (rs : list Row) : string + list Row :=
  match rs with
  | [] => inr []
  | r :: rs' =>
    match prompt field (resolve_formula (ai_prompt field) (row_cells r)) with
    | inl msg => inl msg
    | inr v =>
      match generate_values field rs' with
      | inl msg => inl msg
      | inr out => inr (set_cell (id field) r v :: out)
      end
    end
  end.

(** Modelled from the spec: the task [generate_ai_values_for_rows] of
    [baserow_premium.fields.tasks].  On success the outputs are stored
    and [rows_updated] is sent once; on a prompt error
    [rows_ai_values_generation_error] is sent once, nothing is stored,
    nothing is queued again, and the error is raised. *)
Definition generate_ai_values_for_rows (user_id field_id : Z) (row_ids : list Z)
           (w : world) : world * result unit :=
  match users w !! user_id with
  | None => (w, Raise (ServiceError "User.DoesNotExist"))
  | Some _ =>
    match get_field field_id w with
    | None => (w, Raise (ServiceError "FieldDoesNotExist"))
    | Some field =>
      match tables w !! table_id field with
      | None => (w, Raise (ServiceError "TableDoesNotExist"))
      | Some t =>
        let rs := get_rows t row_ids in
        match generate_values field rs with
        | inl msg =>
          (mkWorld (users w) (fields w) (tables w)
                   (signals w ++ [rows_ai_values_generation_error rs field msg])
                   (queue w),
           Raise (GenerativeAIPromptError msg))
        | inr out =>
          (mkWorld (users w) (fields w)
                   (<[table_id field := store_rows t out]> (tables w))
                   (signals w ++ [rows_updated out {[ id field ]}])
                   (queue w),
           Ok tt)
        end
      end
    end
  end.

End Task.

(** Modelled from the spec: the field with [ai_auto_update] set to
    [False]. *)
Definition disable_auto_update (f : AIField) : AIField :=
  mkField (id f) (table_id f) (ai_prompt f) (ai_generative_ai_type f)
          false (ai_auto_update_user_id f).

(** Modelled from the spec: the user on whose behalf an auto-updating field
    runs, if that user still exists and holds an active premium license. *)
Definition auto_update_user (f : AIField) (w : world) : option Z :=
  uid ← ai_auto_update_user_id f;
  acc ← users w !! uid;
  if has_active_premium_license acc then Some uid else None.

(** Modelled from the spec: what creating rows does for one AI field of
    the table: queue the task, or switch auto-update off. *)
Definition after_rows_created (row_ids : list Z) (w : world) (f : AIField)
  : AIField * list task_args :=
  if ai_auto_update f then
    match auto_update_user f w with
    | Some uid => (f, [(uid, id f, row_ids)])
    | None => (disable_auto_update f, [])
    end
  else (f, []).

(** Modelled from the spec: fresh consecutive ids for the new rows. *)
Fixpoint insert_rows (next : Z) (rows_values : list cells) (m : gmap Z cells)
  : Z * list Z * gmap Z cells :=
  match rows_values with
  | [] => (next, [], m)
  | c :: rest =>
    let '(next', ids, m') := insert_rows (next + 1) rest (<[next := c]> m) in
    (next', next :: ids, m')
  end.

(** Modelled from the spec: [RowHandler().create_rows] as far as the AI
    fields of the table are concerned. *)
Definition create_rows (tid : Z) (rows_values : list cells) (w : world)
  : world * list Z :=
  match tables w !! tid with
  | None => (w, [])
  | Some t =>
    let '(next', ids, m') := insert_rows (next_row_id t) rows_values (rows t) in
    let done :=
      map (fun f => if Z.eqb (table_id f) tid
                    then after_rows_created ids w f else (f, []))
          (fields w) in
    (mkWorld (users w) (map fst done)
             (<[tid := mkTable next' m']> (tables w))
             (signals w)
             (queue w ++ concat (map snd done)),
     ids)
  end.

(** Modelled from the spec: the queued calls for one field. *)
Definition tasks_for (field_id : Z) (q : list task_args) : list task_args :=
  filter (fun a => a.1.2 = field_id) q.

End AiField.

(** ** utils.py *)

(** Keyword arguments of [AutomationNodeService().create_node]; an argument
    that the call site leaves out is [None]. *)
Record create_node_args := CreateNodeArgs {
  cn_user : User.t;
  cn_node_type : NodeType.t;
  cn_workflow : AutomationWorkflow.t;
  cn_reference_node_id : option Z;
  cn_output : option string;
  cn_label : string;
  cn_service : pydict
}.

(** One entry per call into a creating host service, with what it gave
    back. *)
Inductive event : Type :=
| CreateWorkflow (user : User.t) (automation_id : Z) (name : string)
                 (r : result AutomationWorkflow.t)
| CreateNode (args : create_node_args) (r : result AutomationNode.t).

Section Host.

(** The host application: its database and its services. *)
Context {DB : Type}.
Variable workflow_service_get_workflow :
  User.t -> Z -> DB -> result AutomationWorkflow.t.
Variable workflow_service_create_workflow :
  User.t -> Z -> string -> DB -> DB * result AutomationWorkflow.t.
Variable automation_node_type_registry_get : string -> result NodeType.t.
Variable node_service_create_node :
  create_node_args -> DB -> DB * result AutomationNode.t.

Record state := State { db : DB; calls : list event }.

(** Computations that read and write the host state and may raise; what
    was done before an exception stays done. *)
Definition M (A : Type) : Type := state -> state * result A.

#[local] Instance M_ret : MRet M := fun A x s => (s, Ok x).
#[local] Instance M_bind : MBind M := fun A B f m s =>
  match m s with
  | (s', inr x) => f x s'
  | (s', inl e) => (s', Raise e)
  end.

Definition lift {A} (r : result A) : M A := fun s => (s, r).

Definition get_workflow_call (user : User.t) (workflow_id : Z)
  : M AutomationWorkflow.t :=
  fun s => (s, workflow_service_get_workflow user workflow_id (db s)).

Definition create_workflow_call (user : User.t) (automation_id : Z) (name : string)
  : M AutomationWorkflow.t :=
  fun s =>
    let '(d, r) := workflow_service_create_workflow user automation_id name (db s) in
    (State d (calls s ++ [CreateWorkflow user automation_id name r]), r).

Definition create_node_call (args : create_node_args) : M AutomationNode.t :=
  fun s =>
    let '(d, r) := node_service_create_node args (db s) in
    (State d (calls s ++ [CreateNode args r]), r).

Definition get_workflow (workflow_id : Z) (user : User.t) (workspace : Workspace.t)
  : M AutomationWorkflow.t :=
  workflow ← get_workflow_call user workflow_id;
  if bool_decide (Automation.workspace_id (AutomationWorkflow.automation workflow)
                  ≠ Some (Workspace.id workspace))
  then lift (Raise (ValueError "Workflow not in workspace"))
  else mret workflow.

(** [node_mapping[ref] = node_mapping[orm.id] = (orm, node)]: the targets
    are assigned from left to right. *)
Definition register (node_mapping : mapping) (ref : string)
           (orm : AutomationNode.t) (node : NodeCreate) : mapping :=
  <[KInt (AutomationNode.id orm) := (orm, node)]>
    (<[KStr ref := (orm, node)]> node_mapping).

(** The [for node in workflow.nodes] loop. *)
Fixpoint create_nodes (user : User.t) (orm_wf : AutomationWorkflow.t)
         (nodes : list AnyNodeCreate) (node_mapping : mapping) : M mapping :=
  match nodes with
  | [] => mret node_mapping
  | node :: rest =>
    let orm_service_data := Node.to_orm_service_dict node in
    '(reference_node_id, output) ←
      lift (EdgeCreate.to_orm_reference_node (EdgeCreate.of_node node) node_mapping);
    node_type ← lift (automation_node_type_registry_get (Node.type node));
    orm_node ← create_node_call
      {| cn_user := user;
         cn_node_type := node_type;
         cn_workflow := orm_wf;
         cn_reference_node_id := Some reference_node_id;
         cn_output := Some output;
         cn_label := Node.label node;
         cn_service := orm_service_data |};
    create_nodes user orm_wf rest
      (register node_mapping (Node.ref node) orm_node (OfNode node))
  end.

(** [create_workflow] up to its [return], with the local [node_mapping]
    kept next to [orm_wf]. *)
Definition create_workflow_locals (user : User.t) (automation : Automation.t)
           (workflow : WorkflowCreate.t) : M (AutomationWorkflow.t * mapping) :=
  orm_wf ← create_workflow_call user (Automation.id automation)
                                (WorkflowCreate.name workflow);
  let node_mapping : mapping := ∅ in
  let trigger := WorkflowCreate.trigger workflow in
  let orm_service_data := TriggerNodeCreate.to_orm_service_dict trigger in
  node_type ← lift (automation_node_type_registry_get (TriggerNodeCreate.type trigger));
  orm_trigger ← create_node_call
    {| cn_user := user;
       cn_node_type := node_type;
       cn_workflow := orm_wf;
       cn_reference_node_id := None;
       cn_output := None;
       cn_label := TriggerNodeCreate.label trigger;
       cn_service := orm_service_data |};
  let node_mapping :=
    register node_mapping (TriggerNodeCreate.ref trigger) orm_trigger
             (OfTrigger trigger) in
  node_mapping ← create_nodes user orm_wf (WorkflowCreate.nodes workflow) node_mapping;
  mret (orm_wf, node_mapping).

Definition create_workflow (user : User.t) (automation : Automation.t)
           (workflow : WorkflowCreate.t) : M AutomationWorkflow.t :=
  '(orm_wf, _) ← create_workflow_locals user automation workflow;
  mret orm_wf.

End Host.

Arguments state : clear implicits.
Arguments M : clear implicits.

(** ** Reading a run of [create_workflow]

    The definitions below are the vocabulary of the statements about
    [create_workflow]: they restate, over the recorded service calls, what
    is expected of the function. *)

(** A created node: the ORM row and the schema object it came from. *)
Abbreviation entry := (AutomationNode.t * NodeCreate)%type.

(** The ORM nodes the node service handed back, in call order. *)
Definition created_nodes (evs : list event) : list AutomationNode.t :=
  omap (fun e => match e with CreateNode _ (inr n) => Some n | _ => None end) evs.

(** The keys one created node is registered under. *)
Definition keys_of (c : entry) : list key :=
  [KStr (Schema.ref c.2); KInt (AutomationNode.id c.1)].

Definition registered_keys (created : list entry) : list key :=
  flat_map keys_of created.

Definition registered_under (k : key) (c : entry) : bool :=
  bool_decide (k ∈ keys_of c).

(** Among the nodes created so far, the latest one registered under [k]. *)
Definition latest_registered (created : list entry) (k : key) : option entry :=
  List.find (registered_under k) (rev created).

(** Among the nodes created so far, the latest one whose client ref is [r]. *)
Definition latest_with_ref (created : list entry) (r : string) : option entry :=
  List.find (fun c => String.eqb (Schema.ref c.2) r) (rev created).

(** The branch of a router a label stands for: the first one carrying it. *)
Definition first_branch (edges : list RouterEdgeCreate.t) (lbl : string)
  : option RouterEdgeCreate.t :=
  List.find (fun b => String.eqb (RouterEdgeCreate.label b) lbl) edges.

(** What [node] is to be linked to once [created] exist: the id of the
    created node whose ref is [node]'s [previous_node_ref], with the uid of
    the branch its label stands for when that node is a router and the label
    is not empty, and the empty output otherwise; an error when no created
    node has the ref, or the router no such branch. *)
Definition edge_target (created : list entry) (node : AnyNodeCreate)
  : result (Z * string) :=
  match latest_with_ref created (Node.previous_node_ref node) with
  | None =>
    Raise (ValueError ("Previous node ref '" +:+ Node.previous_node_ref node
                       +:+ "' not found in mapping"))
  | Some (orm, OfNode (Router r)) =>
    if String.eqb (Node.router_edge_label node) ""
    then Ok (AutomationNode.id orm, "")
    else
      match first_branch (RouterNodeCreate.edges r) (Node.router_edge_label node) with
      | Some b => Ok (AutomationNode.id orm, RouterEdgeCreate._uid b)
      | None =>
        Raise (ValueError ("Branch label '" +:+ Node.router_edge_label node
                           +:+ "' not found in previous router node"))
      end
  | Some (orm, _) => Ok (AutomationNode.id orm, "")
  end.

(** The call that creates the trigger: the node type the registry has for
    the trigger's type, no reference node, no output. *)
Definition trigger_call (registry : string -> result NodeType.t)
           (user : User.t) (wf : AutomationWorkflow.t)
           (trigger : TriggerNodeCreate.t) (args : create_node_args) : Prop :=
  cn_user args = user ∧ cn_workflow args = wf ∧
  registry (TriggerNodeCreate.type trigger) = Ok (cn_node_type args) ∧
  cn_reference_node_id args = None ∧ cn_output args = None ∧
  cn_label args = TriggerNodeCreate.label trigger ∧
  cn_service args = TriggerNodeCreate.to_orm_service_dict trigger.

(** The call that creates [node] once [created] exist: the node type the
    registry has for the node's type; as reference node the created node
    whose ref is [node]'s [previous_node_ref]; as output what [edge_target]
    gives. *)
Definition node_call (registry : string -> result NodeType.t)
           (user : User.t) (wf : AutomationWorkflow.t)
           (created : list entry) (node : AnyNodeCreate)
           (args : create_node_args) : Prop :=
  cn_user args = user ∧ cn_workflow args = wf ∧
  registry (Node.type node) = Ok (cn_node_type args) ∧
  cn_label args = Node.label node ∧
  cn_service args = Node.to_orm_service_dict node ∧
  ∃ prev out,
    latest_with_ref created (Node.previous_node_ref node) = Some prev ∧
    edge_target created node = Ok (AutomationNode.id prev.1, out) ∧
    cn_reference_node_id args = Some (AutomationNode.id prev.1) ∧
    cn_output args = Some out.

(** Node-service calls for the nodes of a list, one after the other in list
    order, each answered with a node, up to the end of the list or to the
    first node that cannot be created.  The last index is the exception the
    calls ended with, if any; there are three causes: the node's reference
    does not resolve, the registry does not know its type, or the node
    service raised on its call. *)
Inductive nodes_in_order (registry : string -> result NodeType.t)
          (user : User.t) (wf : AutomationWorkflow.t)
  : list entry -> list AnyNodeCreate -> list event -> option exn -> Prop :=
| nio_done created :
    nodes_in_order registry user wf created [] [] None
| nio_unresolved created node rest e :
    edge_target created node = Raise e ->
    nodes_in_order registry user wf created (node :: rest) [] (Some e)
| nio_unregistered created node rest target e :
    edge_target created node = Ok target ->
    registry (Node.type node) = Raise e ->
    nodes_in_order registry user wf created (node :: rest) [] (Some e)
| nio_last created node rest args e :
    node_call registry user wf created node args ->
    nodes_in_order registry user wf created (node :: rest)
                   [CreateNode args (Raise e)] (Some e)
| nio_next created node rest args orm evs outcome :
    node_call registry user wf created node args ->
    nodes_in_order registry user wf (created ++ [(orm, OfNode node)]) rest evs outcome ->
    nodes_in_order registry user wf created (node :: rest)
                   (CreateNode args (Ok orm) :: evs) outcome.

(** After the workflow record: the trigger, then the nodes.  The calls end
    before the trigger's only when the registry does not know its type. *)
Inductive trigger_then_nodes (registry : string -> result NodeType.t)
          (user : User.t) (wf : AutomationWorkflow.t)
          (workflow : WorkflowCreate.t) : list event -> option exn -> Prop :=
| ttn_unregistered e :
    registry (TriggerNodeCreate.type (WorkflowCreate.trigger workflow)) = Raise e ->
    trigger_then_nodes registry user wf workflow [] (Some e)
| ttn_last args e :
    trigger_call registry user wf (WorkflowCreate.trigger workflow) args ->
    trigger_then_nodes registry user wf workflow [CreateNode args (Raise e)] (Some e)
| ttn_next args orm_trigger evs outcome :
    trigger_call registry user wf (WorkflowCreate.trigger workflow) args ->
    nodes_in_order registry user wf
                   [(orm_trigger, OfTrigger (WorkflowCreate.trigger workflow))]
                   (WorkflowCreate.nodes workflow) evs outcome ->
    trigger_then_nodes registry user wf workflow
                       (CreateNode args (Ok orm_trigger) :: evs) outcome.

(** The whole run: the workflow record first.  The last index is the result
    of the run: the workflow the service gave when every call was made, the
    exception that ended the calls otherwise. *)
Inductive workflow_in_order (registry : string -> result NodeType.t)
          (user : User.t) (automation : Automation.t)
          (workflow : WorkflowCreate.t)
  : list event -> result AutomationWorkflow.t -> Prop :=
| wio_last e :
    workflow_in_order registry user automation workflow
      [CreateWorkflow user (Automation.id automation) (WorkflowCreate.name workflow)
                      (Raise e)]
      (Raise e)
| wio_next orm_wf evs outcome :
    trigger_then_nodes registry user orm_wf workflow evs outcome ->
    workflow_in_order registry user automation workflow
      (CreateWorkflow user (Automation.id automation) (WorkflowCreate.name workflow)
                      (Ok orm_wf) :: evs)
      (match outcome with None => Ok orm_wf | Some e => Raise e end).

(** The exception a call ended with, if it raised. *)
Definition raised {A} (r : result A) : option exn :=
  match r with inl e => Some e | inr _ => None end.


(** The created nodes of a run over [trigger] and [nodes], paired with
    their schema objects. *)
Definition created_of (trigger : TriggerNodeCreate.t) (nodes : list AnyNodeCreate)
           (evs : list event) : list entry :=
  zip (created_nodes evs) (OfTrigger trigger :: map OfNode nodes).

(** ** Reading a service dict *)

(** A dict carries a value when some key holds it. *)
Definition carries (d : pydict) (v : pyval) : Prop :=
  ∃ k, dict_get k d = Some v.

(** The configuration a row action is declared with: the table id and the
    values to write, and for [update_row] the row identifier. *)
Definition row_action_configuration (n : AnyNodeCreate) : list pyval :=
  match n with
  | CreateRow c =>
    [ PInt (CreateRowActionCreate.table_id c);
      PDict (CreateRowActionCreate.values c) ]
  | UpdateRow u =>
    [ PInt (UpdateRowActionCreate.table_id u);
      PDict (UpdateRowActionCreate.values u);
      PStr (UpdateRowActionCreate.row u) ]
  | _ => []
  end.

(** ** A small host for worked runs

    The database is a counter; every service call succeeds and draws the
    next id. *)

Definition demo_get_workflow (user : User.t) (workflow_id : Z) (d : Z)
  : result AutomationWorkflow.t :=
  Ok (AutomationWorkflow.mk workflow_id "wf" (Automation.mk 7 (Some workflow_id))).

Definition demo_create_workflow (user : User.t) (automation_id : Z) (name : string)
           (d : Z) : Z * result AutomationWorkflow.t :=
  (d + 1, Ok (AutomationWorkflow.mk d name (Automation.mk automation_id (Some 1)))).

Definition demo_registry_get (type : string) : result NodeType.t :=
  Ok (NodeType.mk type).

Definition demo_create_node (args : create_node_args) (d : Z)
  : Z * result AutomationNode.t :=
  (d + 1, Ok (AutomationNode.mk d)).

Definition demo_user : User.t := User.mk 1.
Definition demo_automation : Automation.t := Automation.mk 7 (Some 1).

Definition demo_trigger : TriggerNodeCreate.t :=
  TriggerNodeCreate.mk "Periodic Trigger" TriggerType.periodic "trigger1" None None.

Definition demo_create_row (ref prev : string) : AnyNodeCreate :=
  CreateRow (CreateRowActionCreate.mk "Create row" 999 [] ref prev "").

Definition demo_update_row (row : string) (values : pydict) : UpdateRowActionCreate.t :=
  UpdateRowActionCreate.mk "Update row" 999 row values "action" "trigger1" "".

Definition demo_router : RouterNodeCreate.t :=
  RouterNodeCreate.mk "Route"
    [ RouterEdgeCreate.mk "big" "amount over 100" "uid-1";
      RouterEdgeCreate.mk "small" "" "uid-2";
      RouterEdgeCreate.mk "big" "again" "uid-3" ]
    "router1" "trigger1" "".

Definition demo_state : state Z := State 10 [].

(** The workflow of [test_create_workflows], with a second action chained to
    the first. *)
Definition demo_workflow : WorkflowCreate.t :=
  WorkflowCreate.mk "Process Orders" demo_trigger
    [ demo_create_row "action1" "trigger1"; demo_create_row "action2" "action1" ].

(** Two nodes that share the ref ["a"], then a node that refers to ["a"]. *)
Definition demo_duplicates : list AnyNodeCreate :=
  [ demo_create_row "a" "trigger1"; demo_create_row "a" "a" ].

Definition demo_after_duplicate : AnyNodeCreate := demo_create_row "b" "a".

(** A node that refers to a node further down the list. *)
Definition demo_forward : AnyNodeCreate := demo_create_row "early" "later".
Definition demo_later : AnyNodeCreate := demo_create_row "later" "trigger1".

Definition demo_orm_wf (name : string) : AutomationWorkflow.t :=
  AutomationWorkflow.mk 10 name (Automation.mk 7 (Some 1)).

Definition demo_workflow_call (name : string) : event :=
  CreateWorkflow demo_user 7 name (Ok (demo_orm_wf name)).

Definition demo_trigger_call (name : string) : event :=
  CreateNode (CreateNodeArgs demo_user (NodeType.mk "periodic") (demo_orm_wf name)
                             None None "Periodic Trigger" [])
             (Ok (AutomationNode.mk 11)).

Definition demo_node_call (name : string) (reference_node_id id : Z) : event :=
  CreateNode (CreateNodeArgs demo_user (NodeType.mk "create_row") (demo_orm_wf name)
                             (Some reference_node_id) (Some "") "Create row"
                             [("table_id", PInt 999)])
             (Ok (AutomationNode.mk id)).

Definition demo_trigger_mapping : mapping :=
  register ∅ "trigger1" (AutomationNode.mk 11) (OfTrigger demo_trigger).

Definition demo_router_mapping : mapping :=
  register demo_trigger_mapping "router1" (AutomationNode.mk 12)
           (OfNode (Router demo_router)).

(** The run over [demo_duplicates]: its final state and mapping. *)
Definition demo_duplicates_state : state Z :=
  State 14 [ demo_workflow_call "wf"; demo_trigger_call "wf";
             demo_node_call "wf" 11 12; demo_node_call "wf" 12 13 ].

Definition demo_duplicates_mapping : mapping :=
  register (register demo_trigger_mapping "a" (AutomationNode.mk 12)
                     (OfNode (demo_create_row "a" "trigger1")))
           "a" (AutomationNode.mk 13) (OfNode (demo_create_row "a" "a")).

(** ** Worked inputs for the AI field task

    The fake backends of the tests: one echoes the prompt, one raises. *)

Definition demo_prompt (field : AiField.AIField) (message : string) : string + string :=
  if String.eqb (AiField.ai_generative_ai_type field) "test_generative_ai_prompt_error"
  then inl "Test error"
  else inr ("Generated with temperature None: " +:+ message).

(** Fields 2 and 3 are the text fields [firstname] and [lastname]; field 5
    is the AI field. *)
Definition demo_ai_field (type : string) (formula : AiField.formula)
           (auto_update : bool) (user_id : option Z) : AiField.AIField :=
  AiField.mkField 5 1 formula type auto_update user_id.

Definition demo_hello : AiField.formula :=
  AiField.Concat [AiField.Lit "Hello "; AiField.Get 2; AiField.Lit " "; AiField.Get 3].

Definition demo_invalid : AiField.formula :=
  AiField.Concat [AiField.Lit "Hello "; AiField.Get 0].

Definition demo_cells : AiField.cells := {[ 2 := "Bram"; 3 := "Wiepjes" ]}.

Definition demo_table : AiField.Table := AiField.mkTable 2 {[ 1 := demo_cells ]}.

Definition demo_world (licensed : bool) (field : AiField.AIField) : AiField.world :=
  AiField.mkWorld {[ 1 := AiField.mkAccount licensed ]} [field]
                  {[ 1 := demo_table ]} [] [].

Definition demo_hello_field : AiField.AIField :=
  demo_ai_field "test_generative_ai" demo_hello false None.

Definition demo_error_field : AiField.AIField :=
  demo_ai_field "test_generative_ai_prompt_error" demo_invalid false None.

Definition demo_auto_field (user_id : option Z) : AiField.AIField :=
  demo_ai_field "test_generative_ai" (AiField.Get 2) true user_id.

(** ** Further vocabulary

    Used by the statements about the parts of [node.py] and [utils.py] that
    follow the ones above. *)

(** The table a row action works on; [None] for the other nodes. *)
Definition row_table_id (n : AnyNodeCreate) : option Z :=
  match n with
  | CreateRow c => Some (CreateRowActionCreate.table_id c)
  | UpdateRow u => Some (UpdateRowActionCreate.table_id u)
  | DeleteRow d => Some (DeleteRowActionCreate.table_id d)
  | _ => None
  end.

(** The choices an AI agent node ends up with: its [choices] when the
    output type is ['choice'], none otherwise. *)
Definition effective_choices (a : AiAgentNodeCreate.t) : list string :=
  match AiAgentNodeCreate.output_type a with
  | OutputType.choice => default [] (AiAgentNodeCreate.choices a)
  | OutputType.text => []
  end.

(** The member of the [AnyNodeCreate] union a node belongs to. *)
Inductive node_kind : Type :=
| KRouter | KSendEmail | KCreateRow | KUpdateRow | KDeleteRow | KAiAgent.

Definition kind_of (n : AnyNodeCreate) : node_kind :=
  match n with
  | Router _ => KRouter
  | SendEmail _ => KSendEmail
  | CreateRow _ => KCreateRow
  | UpdateRow _ => KUpdateRow
  | DeleteRow _ => KDeleteRow
  | AiAgent _ => KAiAgent
  end.







(** A host whose workflow service refuses. *)
Definition demo_refuse_workflow (user : User.t) (automation_id : Z) (name : string)
           (d : Z) : Z * result AutomationWorkflow.t :=
  (d, Raise (ServiceError "PermissionDenied")).

(** A host whose workflow lookup finds nothing. *)
Definition demo_missing_workflow (user : User.t) (workflow_id : Z) (d : Z)
  : result AutomationWorkflow.t :=
  Raise (ServiceError "AutomationWorkflowDoesNotExist").

Definition demo_email (cc : option string) : SendEmailActionCreate.t :=
  SendEmailActionCreate.mk "Notify" "ops@example.com" cc None "It's done" "Bye"
                           BodyType.plain "mail" "trigger1" "".

Definition demo_agent (output_type : OutputType.t) (choices : option (list string))
  : AiAgentNodeCreate.t :=
  AiAgentNodeCreate.mk "Classify" output_type choices None "Sort this" "agent"
                       "trigger1" "".

(** A node behind [demo_router] on a branch the router does not have. *)
Definition demo_unknown_branch : AnyNodeCreate :=
  CreateRow (CreateRowActionCreate.mk "Create row" 999 [] "action" "router1" "medium").

Definition demo_delete_row : AnyNodeCreate :=
  DeleteRow (DeleteRowActionCreate.mk "Delete row" 999 "1" "gone" "trigger1" "").

(** The three branches of [demo_router]; the third repeats the label of the
    first. *)
Definition demo_branch_big : RouterEdgeCreate.t :=
  RouterEdgeCreate.mk "big" "amount over 100" "uid-1".
Definition demo_branch_small : RouterEdgeCreate.t :=
  RouterEdgeCreate.mk "small" "" "uid-2".
Definition demo_branch_big_again : RouterEdgeCreate.t :=
  RouterEdgeCreate.mk "big" "again" "uid-3".

(** The mapping after the first and after the second action of
    [demo_workflow]. *)
Definition demo_action1_mapping : mapping :=
  register demo_trigger_mapping "action1" (AutomationNode.mk 12)
           (OfNode (demo_create_row "action1" "trigger1")).

Definition demo_action2_mapping : mapping :=
  register demo_action1_mapping "action2" (AutomationNode.mk 13)
           (OfNode (demo_create_row "action2" "action1")).

(** * Properties *)

(** ** node.py *)

Section NodeSchemas.

Lemma trigger_type_not_router (t : TriggerNodeCreate.t) :
  String.eqb (TriggerNodeCreate.type t) "router" = false.
Proof. unfold TriggerNodeCreate.type. by destruct (TriggerNodeCreate.type_ t). Qed.

Lemma schema_type_router (c : NodeCreate) :
  Schema.type c = "router" → ∃ r, c = OfNode (Router r).
Proof.
  destruct c as [t | n]; simpl.
  - intros H. pose proof (trigger_type_not_router t) as Hn.
    rewrite H in Hn. discriminate.
  - destruct n; simpl; try discriminate. eauto.
Qed.

Lemma next_uid_first (before after : list RouterEdgeCreate.t) edge lbl :
  Forall (fun e => RouterEdgeCreate.label e ≠ lbl) before →
  RouterEdgeCreate.label edge = lbl →
  EdgeCreate.next_uid (before ++ edge :: after) lbl
  = Some (RouterEdgeCreate._uid edge).
Proof.
  intros Hb He. induction Hb as [| e before Hne _ IH]; simpl.
  - apply String.eqb_eq in He. by rewrite He.
  - apply String.eqb_neq in Hne. by rewrite Hne.
Qed.

Lemma next_uid_none (edges : list RouterEdgeCreate.t) lbl :
  Forall (fun e => RouterEdgeCreate.label e ≠ lbl) edges →
  EdgeCreate.next_uid edges lbl = None.
Proof.
  induction 1 as [| e edges Hne _ IH]; simpl; [done |].
  apply String.eqb_neq in Hne. by rewrite Hne.
Qed.

Lemma str_truthy_true (s : string) : s ≠ "" → str_truthy s = true.
Proof. intros H. unfold str_truthy. apply String.eqb_neq in H. by rewrite H. Qed.

(** C8: [TriggerNodeCreate.to_orm_service_dict] gives the five periodic
    settings for a ['periodic'] trigger with [periodic_interval] set, the
    [table_id] alone for a rows trigger with [rows_triggers_settings] set,
    and the empty dict in every other case ([http_trigger], and a missing
    settings object). *)
Theorem trigger_to_orm_service_dict_cases (self : TriggerNodeCreate.t) :
  (∀ p, TriggerNodeCreate.type self = "periodic" →
        TriggerNodeCreate.periodic_interval self = Some p →
        TriggerNodeCreate.to_orm_service_dict self
        = [ ("interval", PStr (Interval.name (PeriodicTriggerSettings.interval p)));
            ("minute", opt_int (PeriodicTriggerSettings.minute p));
            ("hour", opt_int (PeriodicTriggerSettings.hour p));
            ("day_of_week", opt_int (PeriodicTriggerSettings.day_of_week p));
            ("day_of_month", opt_int (PeriodicTriggerSettings.day_of_month p)) ])
  ∧ (∀ r, TriggerNodeCreate.type self ∈ ["rows_created"; "rows_updated"; "rows_deleted"] →
          TriggerNodeCreate.rows_triggers_settings self = Some r →
          TriggerNodeCreate.to_orm_service_dict self
          = [ ("table_id", PInt (RowsTriggersSettings.table_id r)) ])
  ∧ (¬ (TriggerNodeCreate.type self = "periodic"
        ∧ is_Some (TriggerNodeCreate.periodic_interval self)) →
     ¬ (TriggerNodeCreate.type self ∈ ["rows_created"; "rows_updated"; "rows_deleted"]
        ∧ is_Some (TriggerNodeCreate.rows_triggers_settings self)) →
     TriggerNodeCreate.to_orm_service_dict self = [])
  ∧ (TriggerNodeCreate.type self = "http_trigger" →
     TriggerNodeCreate.to_orm_service_dict self = []).
Proof.
  destruct self as [lbl ty ref pi rs].
  unfold TriggerNodeCreate.to_orm_service_dict, TriggerNodeCreate.type. simpl.
  repeat split.
  - intros p Hty ->. by rewrite Hty.
  - intros r Hty ->. destruct ty; simpl in *; try done.
    all: by repeat (apply elem_of_cons in Hty as [Hty | Hty]; [discriminate |]);
         apply elem_of_nil in Hty.
  - intros H1 H2.
    destruct ty, pi, rs; simpl; try done.
    all: try (exfalso; apply H1; split; [done | eauto]).
    all: exfalso; apply H2; split; [| eauto]; set_solver.
  - intros Hty. destruct ty; simpl in *; try discriminate. by destruct pi, rs.
Qed.

(** C2, as the code has it: the service dict of a [create_row] and of an
    [update_row] node holds the table id and nothing else; it has no entry
    for the values to write nor for the row identifier. *)
Theorem row_action_service_dict_table_id_only :
  (∀ c : CreateRowActionCreate.t,
      Node.to_orm_service_dict (CreateRow c)
      = [ ("table_id", PInt (CreateRowActionCreate.table_id c)) ])
  ∧ (∀ u : UpdateRowActionCreate.t,
      Node.to_orm_service_dict (UpdateRow u)
      = [ ("table_id", PInt (UpdateRowActionCreate.table_id u)) ]).
Proof. split; reflexivity. Qed.

(** C2, as stated, fails: the service dict of an [update_row] node that
    writes [{"name": "Bram"}] into row ["1"] of table 999 carries neither
    the values nor the row. *)
Lemma row_action_service_dict_drops_values :
  ¬ Forall (carries (Node.to_orm_service_dict
                       (UpdateRow (demo_update_row "1" [("name", PStr "Bram")]))))
           (row_action_configuration
              (UpdateRow (demo_update_row "1" [("name", PStr "Bram")]))).
Proof.
  intros H. apply Forall_cons in H as [_ H]. apply Forall_cons in H as [[k Hk] _].
  cbn -[String.eqb] in Hk. destruct (String.eqb "table_id" k); discriminate Hk.
Qed.

(** C3: with the previous node found in the mapping, a non-empty
    [router_edge_label] on a router resolves to the [_uid] of the first
    branch with that label, which is the uid the router's service dict
    gives that branch; no such branch is a [ValueError]; an empty label or
    a previous node that is no router gives the empty output. *)
Theorem to_orm_reference_node_output (self : EdgeCreate.t) (m : mapping)
        (orm : AutomationNode.t) (prev : NodeCreate) :
  m !! KStr (EdgeCreate.previous_node_ref self) = Some (orm, prev) →
  (EdgeCreate.router_edge_label self ≠ "" → Schema.type prev = "router" →
   ∃ r, prev = OfNode (Router r)
     ∧ (∀ before edge after,
          RouterNodeCreate.edges r = before ++ edge :: after →
          Forall (fun e => RouterEdgeCreate.label e ≠ EdgeCreate.router_edge_label self)
                 before →
          RouterEdgeCreate.label edge = EdgeCreate.router_edge_label self →
          EdgeCreate.to_orm_reference_node self m
          = Ok (AutomationNode.id orm, RouterEdgeCreate._uid edge)
          ∧ ∃ branches,
              RouterNodeCreate.to_orm_service_dict r = [("edges", PList branches)]
              ∧ branches !! length before
                = Some (PDict [ ("uid", PStr (RouterEdgeCreate._uid edge));
                                ("label", PStr (EdgeCreate.router_edge_label self)) ]))
     ∧ (Forall (fun e => RouterEdgeCreate.label e ≠ EdgeCreate.router_edge_label self)
               (RouterNodeCreate.edges r) →
        EdgeCreate.to_orm_reference_node self m
        = Raise (ValueError ("Branch label '" +:+ EdgeCreate.router_edge_label self
                             +:+ "' not found in previous router node"))))
  ∧ (EdgeCreate.router_edge_label self = "" ∨ Schema.type prev ≠ "router" →
     EdgeCreate.to_orm_reference_node self m = Ok (AutomationNode.id orm, "")).
Proof.
  intros Hm. unfold EdgeCreate.to_orm_reference_node. rewrite Hm. split.
  - intros Hlbl Hty. destruct (schema_type_router prev Hty) as [r ->].
    exists r. split; [done |].
    rewrite (str_truthy_true _ Hlbl). simpl. split.
    + intros before edge after Hedges Hbefore Hedge. split.
      * by rewrite Hedges, (next_uid_first _ _ _ _ Hbefore Hedge).
      * eexists. split; [reflexivity |].
        rewrite Hedges, list_lookup_fmap, lookup_app_r by lia.
        rewrite Nat.sub_diag. simpl. by rewrite <- Hedge.
    + intros Hnone. by rewrite (next_uid_none _ _ Hnone).
  - intros [-> | Hty]; [done |].
    apply String.eqb_neq in Hty. rewrite Hty. by rewrite andb_false_r.
Qed.

End NodeSchemas.

(** ** The node mapping *)

Section MappingFacts.

Implicit Types (created : list entry) (c : entry) (k : key) (m : mapping).

Lemma find_ext_eq {A} (f g : A → bool) (l : list A) :
  (∀ x, f x = g x) → List.find f l = List.find g l.
Proof. intros H. induction l as [| x l IH]; simpl; [done |]. by rewrite H, IH. Qed.

Lemma latest_registered_snoc created c k :
  latest_registered (created ++ [c]) k
  = if registered_under k c then Some c else latest_registered created k.
Proof. unfold latest_registered. by rewrite rev_unit. Qed.

Lemma latest_registered_str created r :
  latest_registered created (KStr r) = latest_with_ref created r.
Proof.
  apply find_ext_eq. intros [orm nc]. unfold registered_under, keys_of. simpl.
  destruct (String.eqb_spec (Schema.ref nc) r) as [-> | Hne].
  - apply bool_decide_eq_true. apply elem_of_cons. by left.
  - apply bool_decide_eq_false. intros Hin.
    apply elem_of_cons in Hin as [[= Heq] | Hin]; [done |].
    by apply list_elem_of_singleton in Hin.
Qed.

Lemma latest_registered_None created k :
  latest_registered created k = None ↔ k ∉ registered_keys created.
Proof.
  unfold latest_registered, registered_keys. split.
  - intros Hnone Hin. apply list_elem_of_In, in_flat_map in Hin as [c [Hc Hk]].
    apply in_rev in Hc. pose proof (find_none _ _ Hnone c Hc) as Hf.
    unfold registered_under in Hf. apply bool_decide_eq_false in Hf.
    apply Hf. by apply list_elem_of_In.
  - intros Hnot. destruct (List.find _ _) as [c |] eqn:Hfind; [| done].
    apply find_some in Hfind as [Hc Hk]. exfalso. apply Hnot.
    apply list_elem_of_In, in_flat_map. exists c. split; [by apply in_rev |].
    unfold registered_under in Hk. apply bool_decide_eq_true in Hk.
    by apply list_elem_of_In.
Qed.

Lemma latest_registered_Some created k c :
  latest_registered created k = Some c → c ∈ created ∧ k ∈ keys_of c.
Proof.
  unfold latest_registered. intros Hfind. apply find_some in Hfind as [Hc Hk].
  split.
  - apply list_elem_of_In. by apply in_rev.
  - unfold registered_under in Hk. by apply bool_decide_eq_true in Hk.
Qed.

(** [register] keeps the mapping in step with the list of created nodes. *)
Lemma register_latest m created orm nc :
  (∀ k, m !! k = latest_registered created k) →
  ∀ k, register m (Schema.ref nc) orm nc !! k
       = latest_registered (created ++ [(orm, nc)]) k.
Proof.
  intros Hm k. rewrite latest_registered_snoc.
  unfold register, registered_under, keys_of. simpl.
  case_bool_decide as Hk.
  - apply elem_of_cons in Hk as [-> | Hk].
    + by rewrite lookup_insert_ne, lookup_insert_eq.
    + apply list_elem_of_singleton in Hk as ->. by rewrite lookup_insert_eq.
  - assert (KStr (Schema.ref nc) ≠ k) as H1.
    { intros <-. apply Hk, elem_of_cons. by left. }
    assert (KInt (AutomationNode.id orm) ≠ k) as H2.
    { intros <-. apply Hk, elem_of_cons. right. by apply list_elem_of_singleton. }
    by rewrite !lookup_insert_ne.
Qed.

Lemma empty_latest k : (∅ : mapping) !! k = latest_registered [] k.
Proof. by rewrite lookup_empty. Qed.

(** What a successful edge resolution looked up. *)
Lemma to_orm_reference_node_ok (self : EdgeCreate.t) m rid out :
  EdgeCreate.to_orm_reference_node self m = Ok (rid, out) →
  ∃ prev, m !! KStr (EdgeCreate.previous_node_ref self) = Some prev
          ∧ rid = AutomationNode.id prev.1.
Proof.
  unfold EdgeCreate.to_orm_reference_node.
  destruct (m !! _) as [[orm nc] |]; [| done]. intros H. exists (orm, nc).
  split; [done |]. simpl.
  destruct (_ && _); [| by inversion H].
  destruct (Schema.edges nc); [| done].
  destruct (EdgeCreate.next_uid _ _); [| done]. by inversion H.
Qed.

Lemma next_uid_first_branch (edges : list RouterEdgeCreate.t) (lbl : string) :
  EdgeCreate.next_uid edges lbl = RouterEdgeCreate._uid <$> first_branch edges lbl.
Proof.
  unfold first_branch. induction edges as [| b edges IH]; simpl; [done |].
  by destruct (String.eqb (RouterEdgeCreate.label b) lbl).
Qed.

(** On a mapping that follows the created nodes, edge resolution gives what
    [edge_target] reads off the list of created nodes. *)
Lemma to_orm_reference_node_target m created (node : AnyNodeCreate) :
  (∀ k, m !! k = latest_registered created k) →
  EdgeCreate.to_orm_reference_node (EdgeCreate.of_node node) m
  = edge_target created node.
Proof.
  intros Hm. unfold EdgeCreate.to_orm_reference_node, edge_target, EdgeCreate.of_node.
  cbn [EdgeCreate.previous_node_ref EdgeCreate.router_edge_label].
  rewrite Hm, latest_registered_str.
  destruct (latest_with_ref _ _) as [[orm nc] |]; [| done].
  destruct nc as [t | n].
  - cbn [Schema.type]. rewrite trigger_type_not_router. by rewrite andb_false_r.
  - destruct n as [r | | | | |]; cbn [Schema.type Node.type];
      try (by rewrite andb_false_r).
    unfold str_truthy, RouterNodeCreate.type.
    destruct (String.eqb (Node.router_edge_label node) ""); [done |].
    cbn [negb andb Schema.edges]. rewrite String.eqb_refl, next_uid_first_branch.
    by destruct (first_branch _ _).
Qed.

(** A target is the id of the created node the reference stands for. *)
Lemma edge_target_ok created (node : AnyNodeCreate) rid out :
  edge_target created node = Ok (rid, out) →
  ∃ prev, latest_with_ref created (Node.previous_node_ref node) = Some prev
          ∧ rid = AutomationNode.id prev.1.
Proof.
  unfold edge_target.
  destruct (latest_with_ref _ _) as [[orm nc] |]; [| done].
  intros H. exists (orm, nc). split; [done |]. simpl.
  destruct nc as [t | n]; [by injection H |].
  destruct n as [r | | | | |]; try by injection H.
  destruct (String.eqb _ _); [by injection H |].
  destruct (first_branch _ _); [by injection H | done].
Qed.

Lemma created_nodes_app (evs1 evs2 : list event) :
  created_nodes (evs1 ++ evs2) = created_nodes evs1 ++ created_nodes evs2.
Proof. unfold created_nodes. apply omap_app. Qed.

End MappingFacts.

(** ** utils.py *)

Section HostProperties.

Context {DB : Type}.
Variable get_wf : User.t -> Z -> DB -> result AutomationWorkflow.t.
Variable create_wf : User.t -> Z -> string -> DB -> DB * result AutomationWorkflow.t.
Variable registry : string -> result NodeType.t.
Variable create_nd : create_node_args -> DB -> DB * result AutomationNode.t.

Local Abbreviation run_nodes := (create_nodes registry create_nd).
Local Abbreviation run_locals := (create_workflow_locals create_wf registry create_nd).
Local Abbreviation run := (create_workflow create_wf registry create_nd).

(** One turn of the loop, with the binds written out. *)
Lemma create_nodes_cons user wf node rest (m : mapping) (s : state DB) :
  run_nodes user wf (node :: rest) m s
  = match EdgeCreate.to_orm_reference_node (EdgeCreate.of_node node) m with
    | inl e => (s, Raise e)
    | inr (rid, out) =>
      match registry (Node.type node) with
      | inl e => (s, Raise e)
      | inr nt =>
        let args := CreateNodeArgs user nt wf (Some rid) (Some out) (Node.label node)
                                   (Node.to_orm_service_dict node) in
        match create_nd args (db s) with
        | (d, inl e) => (State d (calls s ++ [CreateNode args (Raise e)]), Raise e)
        | (d, inr orm) =>
          run_nodes user wf rest (register m (Node.ref node) orm (OfNode node))
                    (State d (calls s ++ [CreateNode args (Ok orm)]))
        end
      end
    end.
Proof.
  simpl. unfold mbind, M_bind, lift, create_node_call.
  destruct (EdgeCreate.to_orm_reference_node _ _) as [e | [rid out]]; [done |].
  destruct (registry _) as [e | nt]; [done |]. simpl.
  by destruct (create_nd _ _) as [d [e | orm]].
Qed.

(** The loop over [pre ++ post] is the loop over [pre], then over [post]. *)
Lemma create_nodes_app user wf pre post : ∀ (m : mapping) (s : state DB),
  run_nodes user wf (pre ++ post) m s
  = match run_nodes user wf pre m s with
    | (s1, inr m1) => run_nodes user wf post m1 s1
    | (s1, inl e) => (s1, Raise e)
    end.
Proof.
  induction pre as [| node pre IH]; intros m s; [done |].
  rewrite <- app_comm_cons, !create_nodes_cons.
  destruct (EdgeCreate.to_orm_reference_node _ _) as [e | [rid out]]; [done |].
  destruct (registry _) as [e | nt]; [done |]. simpl.
  destruct (create_nd _ _) as [d [e | orm]]; [done |]. apply IH.
Qed.

(** The loop invariant: the mapping follows the created nodes, and the
    calls follow the list. *)
Lemma create_nodes_run user wf nodes : ∀ created (m : mapping) (s s' : state DB) r,
  (∀ k, m !! k = latest_registered created k) →
  run_nodes user wf nodes m s = (s', r) →
  ∃ evs, calls s' = calls s ++ evs
       ∧ nodes_in_order registry user wf created nodes evs (raised r)
       ∧ ∀ m', r = Ok m' →
           length (created_nodes evs) = length nodes
           ∧ ∀ k, m' !! k
                  = latest_registered
                      (created ++ zip (created_nodes evs) (map OfNode nodes)) k.
Proof.
  induction nodes as [| node rest IH]; intros created m s s' r Hm Hrun.
  - injection Hrun as <- <-. exists []. rewrite app_nil_r. split; [done |].
    split; [constructor |]. intros m' [= <-]. split; [done |].
    intros k. simpl. by rewrite app_nil_r.
  - rewrite create_nodes_cons, (to_orm_reference_node_target _ _ _ Hm) in Hrun.
    destruct (edge_target created node) as [e | [rid out]] eqn:Htarget.
    { injection Hrun as <- <-. exists []. rewrite app_nil_r.
      split; [done |]. split; [by constructor | done]. }
    destruct (registry (Node.type node)) as [e | nt] eqn:Hreg.
    { injection Hrun as <- <-. exists []. rewrite app_nil_r.
      split; [done |]. split; [by econstructor | done]. }
    simpl in Hrun.
    assert (node_call registry user wf created node
              (CreateNodeArgs user nt wf (Some rid) (Some out) (Node.label node)
                              (Node.to_orm_service_dict node))) as Hcall.
    { destruct (edge_target_ok _ _ _ _ Htarget) as [prev [Hprev ->]].
      repeat split; [done |]. by exists prev, out. }
    destruct (create_nd _ _) as [d [e | orm]].
    { injection Hrun as <- <-. eexists. split; [done |].
      split; [by constructor | done]. }
    apply (IH (created ++ [(orm, OfNode node)])) in Hrun
      as [evs [Hcalls [Horder Hok]]]; [| by apply register_latest].
    simpl in Hcalls. rewrite <- app_assoc in Hcalls. simpl in Hcalls.
    eexists. split; [exact Hcalls |]. split; [by constructor |].
    intros m' ->. destruct (Hok m' eq_refl) as [Hlen Hm'].
    split; [simpl; by rewrite Hlen |].
    intros k. rewrite Hm'. simpl. by rewrite <- app_assoc.
Qed.

(** [create_workflow] up to the loop, with the binds written out. *)
Lemma create_workflow_locals_eq user automation workflow (s : state DB) :
  run_locals user automation workflow s
  = let aid := Automation.id automation in
    let name := WorkflowCreate.name workflow in
    let trigger := WorkflowCreate.trigger workflow in
    match create_wf user aid name (db s) with
    | (d1, inl e) =>
      (State d1 (calls s ++ [CreateWorkflow user aid name (Raise e)]), Raise e)
    | (d1, inr orm_wf) =>
      let s1 := State d1 (calls s ++ [CreateWorkflow user aid name (Ok orm_wf)]) in
      match registry (TriggerNodeCreate.type trigger) with
      | inl e => (s1, Raise e)
      | inr nt =>
        let args := CreateNodeArgs user nt orm_wf None None
                                   (TriggerNodeCreate.label trigger)
                                   (TriggerNodeCreate.to_orm_service_dict trigger) in
        match create_nd args d1 with
        | (d2, inl e) =>
          (State d2 (calls s1 ++ [CreateNode args (Raise e)]), Raise e)
        | (d2, inr orm_trigger) =>
          match run_nodes user orm_wf (WorkflowCreate.nodes workflow)
                          (register ∅ (TriggerNodeCreate.ref trigger) orm_trigger
                                    (OfTrigger trigger))
                          (State d2 (calls s1 ++ [CreateNode args (Ok orm_trigger)]))
          with
          | (s', inl e) => (s', Raise e)
          | (s', inr m) => (s', Ok (orm_wf, m))
          end
        end
      end
    end.
Proof.
  unfold create_workflow_locals, mbind, M_bind, lift, create_workflow_call,
    create_node_call, mret, M_ret. simpl.
  destruct (create_wf _ _ _ _) as [d1 [e | orm_wf]]; [done |].
  destruct (registry _) as [e | nt]; [done |]. simpl.
  destruct (create_nd _ _) as [d2 [e | orm_trigger]]; [done |].
  by destruct (create_nodes _ _ _ _ _ _ _) as [s' [e | m]].
Qed.

Lemma create_workflow_eq user automation workflow (s : state DB) :
  run user automation workflow s
  = match run_locals user automation workflow s with
    | (s', inl e) => (s', Raise e)
    | (s', inr (orm_wf, _)) => (s', Ok orm_wf)
    end.
Proof.
  unfold create_workflow, mbind, M_bind, mret, M_ret.
  by destruct (create_workflow_locals _ _ _ _ _ _ _) as [s' [e | [orm_wf m]]].
Qed.

(** The run over a longer node list goes through the run over each of its
    prefixes. *)
Lemma create_workflow_locals_app user automation name trigger pre post (s : state DB) :
  run_locals user automation (WorkflowCreate.mk name trigger (pre ++ post)) s
  = match run_locals user automation (WorkflowCreate.mk name trigger pre) s with
    | (s1, inl e) => (s1, Raise e)
    | (s1, inr (orm_wf, m)) =>
      match run_nodes user orm_wf post m s1 with
      | (s2, inl e) => (s2, Raise e)
      | (s2, inr m2) => (s2, Ok (orm_wf, m2))
      end
    end.
Proof.
  rewrite !create_workflow_locals_eq. simpl.
  destruct (create_wf _ _ _ _) as [d1 [e | orm_wf]]; [done |].
  destruct (registry _) as [e | nt]; [done |].
  destruct (create_nd _ _) as [d2 [e | orm_trigger]]; [done |].
  rewrite create_nodes_app.
  by destruct (create_nodes _ _ _ _ pre _ _) as [s1 [e | m1]].
Qed.

(** A run that reaches the end of the loop: its calls, its created nodes
    and its mapping. *)
Lemma create_workflow_locals_ok user automation name trigger nodes
      (s s1 : state DB) orm_wf (m : mapping) :
  run_locals user automation (WorkflowCreate.mk name trigger nodes) s
  = (s1, Ok (orm_wf, m)) →
  ∃ evs, calls s1 = calls s ++ evs
       ∧ length (created_nodes evs) = S (length nodes)
       ∧ ∀ k, m !! k = latest_registered (created_of trigger nodes evs) k.
Proof.
  rewrite create_workflow_locals_eq. simpl.
  destruct (create_wf _ _ _ _) as [d1 [e | orm_wf']]; [done |].
  destruct (registry _) as [e | nt]; [done |].
  destruct (create_nd _ _) as [d2 [e | orm_trigger]]; [done |].
  destruct (create_nodes _ _ _ _ _ _ _) as [s' [e | m']] eqn:Hloop; [done |].
  intros [= -> -> ->].
  apply (create_nodes_run _ _ _ [(orm_trigger, OfTrigger trigger)]) in Hloop
    as [evs [Hcalls [_ Hok]]].
  2: { intros k. rewrite <- (app_nil_l [_]). apply register_latest, empty_latest. }
  destruct (Hok m eq_refl) as [Hlen Hm]. simpl in Hcalls.
  rewrite <- !app_assoc in Hcalls. simpl in Hcalls.
  eexists. split; [exact Hcalls |]. split; [simpl; by rewrite Hlen |].
  intros k. by rewrite Hm.
Qed.


(** C4: when the loop comes to a node whose [previous_node_ref] is none of
    the keys registered for the trigger and the nodes before it (their refs
    and their ORM ids), [create_workflow] raises the [ValueError] naming
    that ref and leaves the state as it was after the node before: the node
    service is not called for the node.  A reference to a node further
    down the list is such a ref. *)
Theorem create_workflow_unknown_previous_node_ref
        user automation name trigger pre node post
        (s s1 : state DB) orm_wf (m : mapping) :
  run_locals user automation (WorkflowCreate.mk name trigger pre) s
  = (s1, Ok (orm_wf, m)) →
  KStr (Node.previous_node_ref node)
    ∉ registered_keys (created_of trigger pre (drop (length (calls s)) (calls s1))) →
  run user automation (WorkflowCreate.mk name trigger (pre ++ node :: post)) s
  = (s1, Raise (ValueError ("Previous node ref '" +:+ Node.previous_node_ref node
                            +:+ "' not found in mapping"))).
Proof.
  intros Hpre Hkey.
  destruct (create_workflow_locals_ok _ _ _ _ _ _ _ _ _ Hpre) as [evs [Hcalls [_ Hm]]].
  rewrite Hcalls, drop_app_length in Hkey.
  apply latest_registered_None in Hkey. rewrite <- Hm in Hkey.
  rewrite create_workflow_eq, create_workflow_locals_app, Hpre, create_nodes_cons.
  unfold EdgeCreate.to_orm_reference_node, EdgeCreate.of_node.
  cbn [EdgeCreate.previous_node_ref]. by rewrite Hkey.
Qed.

(** C9: at every point of the loop (after any prefix [pre] of the node
    list) the mapping holds, for every created node, its ref and its ORM id
    as keys and no other key; a key gives the pair of the latest created
    node registered under it, so a node whose ref repeats an earlier one
    takes the entry over without an error, and a ref resolves to the latest
    node that has it.  The rest of the loop runs on with this mapping. *)
Theorem node_mapping_registers_created_nodes
        user automation name trigger pre (s s1 : state DB) orm_wf (m : mapping) :
  run_locals user automation (WorkflowCreate.mk name trigger pre) s
  = (s1, Ok (orm_wf, m)) →
  let created := created_of trigger pre (drop (length (calls s)) (calls s1)) in
  created.*2 = OfTrigger trigger :: map OfNode pre
  ∧ (∀ k, is_Some (m !! k) ↔ k ∈ registered_keys created)
  ∧ (∀ k, m !! k = latest_registered created k)
  ∧ (∀ r, m !! KStr r = latest_with_ref created r)
  ∧ (∀ post,
       run_locals user automation (WorkflowCreate.mk name trigger (pre ++ post)) s
       = match run_nodes user orm_wf post m s1 with
         | (s2, inl e) => (s2, Raise e)
         | (s2, inr m2) => (s2, Ok (orm_wf, m2))
         end).
Proof.
  intros Hpre created.
  destruct (create_workflow_locals_ok _ _ _ _ _ _ _ _ _ Hpre) as [evs [Hcalls [Hlen Hm]]].
  subst created. rewrite Hcalls, drop_app_length.
  split; [| split; [| split; [| split]]].
  - unfold created_of. apply snd_zip. simpl. rewrite length_map. lia.
  - intros k. rewrite <- not_eq_None_Some, Hm, latest_registered_None.
    split; [apply dec_stable | by intros ? ?].
  - exact Hm.
  - intros r. by rewrite Hm, latest_registered_str.
  - intros post. by rewrite create_workflow_locals_app, Hpre.
Qed.

(** C10: [get_workflow] hands back the workflow the service found exactly
    when its automation lies in the given workspace, and raises
    [ValueError] when the service found one that lies elsewhere. *)
Theorem get_workflow_same_workspace_only (workflow_id : Z) (user : User.t)
        (workspace : Workspace.t) (s : state DB) :
  (∀ w, (get_workflow get_wf workflow_id user workspace s).2 = Ok w
        ↔ get_wf user workflow_id (db s) = Ok w
          ∧ Automation.workspace_id (AutomationWorkflow.automation w)
            = Some (Workspace.id workspace))
  ∧ (∀ w, get_wf user workflow_id (db s) = Ok w →
          Automation.workspace_id (AutomationWorkflow.automation w)
          ≠ Some (Workspace.id workspace) →
          (get_workflow get_wf workflow_id user workspace s).2
          = Raise (ValueError "Workflow not in workspace")).
Proof.
  unfold get_workflow, get_workflow_call, mbind, M_bind, lift, mret, M_ret.
  destruct (get_wf user workflow_id (db s)) as [e | w0]; simpl.
  - split; [| done]. intros w. split; [done | intros [? _]; done].
  - case_bool_decide as Hws; simpl.
    + split.
      * intros w. split; [done |]. intros [[= ->] ?]. done.
      * intros w [= ->] _. done.
    + split.
      * intros w. split; [by intros [= ->] | by intros [[= ->] _]].
      * intros w [= ->] Hne. done.
Qed.

End HostProperties.

(** ** The AI field task *)

Section AiTaskProperties.

Import AiField.

Variable prompt : AIField -> string -> string + string.

Implicit Types (t : Table) (field : AIField) (r : Row) (c : cells).

(** What the backend answers for a row with cells [c]. *)
Local Abbreviation answer field c :=
  (prompt field (resolve_formula (ai_prompt field) c)).

(** A row of the table with the output stored in the field's column. *)
Local Abbreviation generated field r r' :=
  (∃ v, answer field (row_cells r) = inr v
        ∧ r' = mkRow (row_id r) (<[id field := v]> (row_cells r))).

Lemma get_field_id field_id w field :
  get_field field_id w = Some field → id field = field_id.
Proof.
  unfold get_field. intros H. apply find_some in H as [_ H]. by apply Z.eqb_eq.
Qed.

Lemma get_rows_elem t row_ids r :
  r ∈ get_rows t row_ids →
  row_id r ∈ row_ids ∧ rows t !! row_id r = Some (row_cells r).
Proof.
  unfold get_rows. intros H. apply list_elem_of_omap in H as [i [Hi Hr]].
  destruct (rows t !! i) as [c |] eqn:Hc; [| done].
  injection Hr as <-. by simpl.
Qed.

Lemma get_rows_ids t row_ids i c :
  i ∈ row_ids → rows t !! i = Some c → mkRow i c ∈ get_rows t row_ids.
Proof.
  intros Hi Hc. unfold get_rows. apply list_elem_of_omap. exists i.
  split; [done |]. by rewrite Hc.
Qed.

Lemma generate_values_inr field rs :
  Forall (fun r => ∃ v, answer field (row_cells r) = inr v) rs →
  ∃ out, generate_values prompt field rs = inr out
         ∧ Forall2 (fun r r' => generated field r r') rs out.
Proof.
  induction 1 as [| r rs [v Hv] _ [out [Hout Hall]]]; simpl.
  - by exists [].
  - rewrite Hv, Hout. eexists. split; [done |]. constructor; [| done].
    by exists v.
Qed.

(** The first row the backend raises on ends the run with its message. *)
Lemma generate_values_inl field before r after msg :
  Forall (fun r => ∃ v, answer field (row_cells r) = inr v) before →
  answer field (row_cells r) = inl msg →
  generate_values prompt field (before ++ r :: after) = inl msg.
Proof.
  intros Hbefore Hr. induction Hbefore as [| r0 before [v Hv] _ IH]; simpl.
  - by rewrite Hr.
  - by rewrite Hv, IH.
Qed.

Lemma store_rows_lookup t field rs out :
  Forall2 (fun r r' => generated field r r') rs out →
  (∀ r, r ∈ rs → rows t !! row_id r = Some (row_cells r)) →
  ∀ i c, i ∈ map row_id rs → rows t !! i = Some c →
         ∃ v, answer field c = inr v
              ∧ rows (store_rows t out) !! i = Some (<[id field := v]> c).
Proof.
  unfold store_rows. simpl.
  induction 1 as [| r r' rs out [v [Hv ->]] _ IH]; intros Hrs i c Hi Hc.
  - by apply elem_of_nil in Hi.
  - simpl. destruct (decide (row_id r = i)) as [<- | Hne].
    + rewrite lookup_insert_eq. exists v. simpl.
      assert (row_cells r = c) as <-; [| done].
      specialize (Hrs r ltac:(by left)). congruence.
    + rewrite lookup_insert_ne by done. apply IH; [| | done].
      * intros r0 Hr0. apply Hrs. by right.
      * simpl in Hi. apply elem_of_cons in Hi as [-> | Hi]; done.
Qed.

(** C5: with the backend answering for every requested row, the task
    stores each answer in the AI field's column of its row, the prompt
    being the field's formula evaluated on that row (a field reference
    stands for the row's value, for the empty string where the row has
    none), and sends [rows_updated] once, with the updated rows and
    [updated_field_ids = {field_id}]. *)
Theorem generate_ai_values_for_rows_stores_and_signals
        (user_id field_id : Z) (row_ids : list Z) (w : world) acc field t :
  users w !! user_id = Some acc →
  get_field field_id w = Some field →
  tables w !! table_id field = Some t →
  (∀ i c, i ∈ row_ids → rows t !! i = Some c → ∃ v, answer field c = inr v) →
  ∃ updated,
    generate_ai_values_for_rows prompt user_id field_id row_ids w
    = (mkWorld (users w) (fields w)
               (<[table_id field := store_rows t updated]> (tables w))
               (signals w ++ [rows_updated updated {[ field_id ]}])
               (queue w),
       Ok tt)
    ∧ Forall2 (fun r r' => generated field r r') (get_rows t row_ids) updated
    ∧ (∀ i c, i ∈ row_ids → rows t !! i = Some c →
              ∃ v, answer field c = inr v
                   ∧ rows (store_rows t updated) !! i = Some (<[field_id := v]> c))
    ∧ (∀ i c v, c !! i = Some v → resolve_formula (Get i) c = v)
    ∧ (∀ i c, c !! i = None → resolve_formula (Get i) c = "")
    ∧ (∀ args c, resolve_formula (Concat args) c
                 = foldr (fun a rest => resolve_formula a c +:+ rest) "" args).
Proof.
  intros Huser Hfield Ht Hanswers.
  pose proof (get_field_id _ _ _ Hfield) as Hid. subst field_id.
  assert (∀ r, r ∈ get_rows t row_ids → rows t !! row_id r = Some (row_cells r))
    as Hrows by (intros r Hr; by apply get_rows_elem in Hr as [_ ?]).
  destruct (generate_values_inr field (get_rows t row_ids)) as [out [Hout Hall]].
  { apply Forall_forall. intros r Hr. apply get_rows_elem in Hr as [Hi Hc].
    by apply (Hanswers (row_id r)). }
  exists out. unfold generate_ai_values_for_rows.
  rewrite Huser, Hfield, Ht, Hout. split; [done |]. split; [done |].
  split; [| split; [| split]].
  - intros i c Hi Hc.
    apply (store_rows_lookup t field _ _ Hall Hrows); [| done].
    apply list_elem_of_fmap. exists (mkRow i c). split; [done |].
    by apply get_rows_ids.
  - intros i c v Hv. simpl. by rewrite Hv.
  - intros i c Hv. simpl. by rewrite Hv.
  - intros args c. simpl. induction args as [| a args IH]; [done |].
    simpl. by rewrite IH.
Qed.

(** C6: when the backend raises a prompt error on a requested row, the
    task sends [rows_ai_values_generation_error] once, with the rows, the
    field and the backend's message, sends no [rows_updated], leaves the
    tables and the task queue as they were, and raises the error. *)
Theorem generate_ai_values_for_rows_prompt_error
        (user_id field_id : Z) (row_ids : list Z) (w : world) acc field t
        before r after msg :
  users w !! user_id = Some acc →
  get_field field_id w = Some field →
  tables w !! table_id field = Some t →
  get_rows t row_ids = before ++ r :: after →
  Forall (fun r => ∃ v, answer field (row_cells r) = inr v) before →
  answer field (row_cells r) = inl msg →
  ∃ w',
    generate_ai_values_for_rows prompt user_id field_id row_ids w
    = (w', Raise (GenerativeAIPromptError msg))
    ∧ signals w'
      = signals w ++ [rows_ai_values_generation_error (get_rows t row_ids) field msg]
    ∧ tables w' = tables w
    ∧ queue w' = queue w
    ∧ (∀ rs ids, rows_updated rs ids ∉ drop (length (signals w)) (signals w')).
Proof.
  intros Huser Hfield Ht Hrows Hbefore Hr.
  assert (generate_values prompt field (get_rows t row_ids) = inl msg) as Hgen
    by (rewrite Hrows; by apply generate_values_inl).
  unfold generate_ai_values_for_rows. rewrite Huser, Hfield, Ht. cbv zeta.
  rewrite Hgen. eexists. split; [done |]. simpl. repeat split.
  intros rs ids. rewrite drop_app_length. intros Hin.
  by apply list_elem_of_singleton in Hin.
Qed.

End AiTaskProperties.

(** ** Auto-update of AI fields on row creation *)

Section AutoUpdateProperties.

Import AiField.

Implicit Types (f : AIField) (w : world) (q : list task_args).

Lemma filter_all {A} (P : A → Prop) `{∀ x, Decision (P x)} (l : list A) :
  Forall P l → filter P l = l.
Proof.
  induction 1 as [| x l Hx _ IH]; [done |]. by rewrite filter_cons_True, IH.
Qed.

Lemma filter_none {A} (P : A → Prop) `{∀ x, Decision (P x)} (l : list A) :
  Forall (fun x => ¬ P x) l → filter P l = [].
Proof.
  induction 1 as [| x l Hx _ IH]; [done |]. by rewrite filter_cons_False, IH.
Qed.

Lemma insert_rows_spec (vals : list cells) :
  ∀ next (m : gmap Z cells) next' ids m',
    insert_rows next vals m = (next', ids, m') →
    length ids = length vals
    ∧ (∀ i, i < next → m' !! i = m !! i)
    ∧ Forall2 (fun i c => m' !! i = Some c) ids vals.
Proof.
  induction vals as [| c vals IH]; intros next m next' ids m' Hins; simpl in Hins.
  - injection Hins as <- <- <-. repeat split; constructor.
  - destruct (insert_rows (next + 1) vals (<[next:=c]> m)) as [[n1 ids1] m1] eqn:Hrec.
    injection Hins as <- <- <-.
    destruct (IH _ _ _ _ _ Hrec) as [Hlen [Hold Hnew]].
    split; [simpl; by rewrite Hlen |]. split.
    + intros i Hi. rewrite Hold by lia. apply lookup_insert_ne. lia.
    + constructor; [| done]. rewrite Hold by lia. apply lookup_insert_eq.
Qed.

Lemma tasks_for_app fid q1 q2 :
  tasks_for fid (q1 ++ q2) = tasks_for fid q1 ++ tasks_for fid q2.
Proof. apply filter_app. Qed.

Section PerField.

(** What row creation does with each field: the field as it is left,
    and the calls queued for it. *)
Variable g : AIField → AIField * list task_args.
Hypothesis g_id : ∀ f, id (g f).1 = id f.
Hypothesis g_tasks : ∀ f, Forall (fun a => a.1.2 = id f) (g f).2.

Lemma tasks_for_other fid (l : list AIField) :
  fid ∉ map id l → tasks_for fid (concat (map snd (map g l))) = [].
Proof.
  induction l as [| f0 l IH]; intros Hnot; [done |]. simpl.
  rewrite tasks_for_app, IH.
  - rewrite app_nil_r. apply filter_none.
    eapply Forall_impl; [apply g_tasks |]. simpl. intros a -> <-.
    apply Hnot. simpl. by left.
  - intros Hin. apply Hnot. simpl. by right.
Qed.

Lemma tasks_for_field f (l : list AIField) :
  NoDup (map id l) → f ∈ l →
  tasks_for (id f) (concat (map snd (map g l))) = (g f).2.
Proof.
  induction l as [| f0 l IH]; intros Hnd Hin; [by apply elem_of_nil in Hin |].
  simpl in *. apply NoDup_cons in Hnd as [Hf0 Hnd].
  rewrite tasks_for_app.
  apply elem_of_cons in Hin as [-> | Hin].
  - rewrite (tasks_for_other _ _ Hf0), app_nil_r.
    apply filter_all, g_tasks.
  - rewrite (IH Hnd Hin).
    unfold tasks_for. rewrite filter_none; [done |].
    eapply Forall_impl; [apply g_tasks |]. simpl. intros a -> Heq.
    apply Hf0. rewrite Heq. by apply (list_elem_of_fmap_2 id).
Qed.

Lemma find_field_after f (l : list AIField) :
  NoDup (map id l) → f ∈ l →
  List.find (fun x => Z.eqb (id x) (id f)) (map fst (map g l)) = Some (g f).1.
Proof.
  induction l as [| f0 l IH]; intros Hnd Hin; [by apply elem_of_nil in Hin |].
  simpl in *. apply NoDup_cons in Hnd as [Hf0 Hnd]. rewrite g_id.
  apply elem_of_cons in Hin as [-> | Hin].
  - by rewrite Z.eqb_refl.
  - destruct (Z.eqb_spec (id f0) (id f)) as [Heq | _]; [| by apply IH].
    exfalso. apply Hf0. rewrite Heq. by apply (list_elem_of_fmap_2 id).
Qed.

End PerField.

(** C7: creating rows in a table with an auto-updating AI field queues
    the task for that field once, with the auto-update user's id, the
    field's id and the ids of the created rows, when that user exists with
    an active premium license; otherwise (no such user any more, or no
    license) nothing is queued for the field and its [ai_auto_update] is
    switched off. *)
Theorem create_rows_auto_update (tid : Z) (rows_values : list cells) w t f :
  tables w !! tid = Some t →
  NoDup (map id (fields w)) →
  f ∈ fields w → table_id f = tid → ai_auto_update f = true →
  let w' := (create_rows tid rows_values w).1 in
  let ids := (create_rows tid rows_values w).2 in
  (∃ t', tables w' !! tid = Some t'
         ∧ Forall2 (fun i c => rows t' !! i = Some c) ids rows_values)
  ∧ (∀ uid acc,
       ai_auto_update_user_id f = Some uid → users w !! uid = Some acc →
       has_active_premium_license acc = true →
       tasks_for (id f) (queue w') = tasks_for (id f) (queue w) ++ [(uid, id f, ids)]
       ∧ get_field (id f) w' = Some f)
  ∧ (¬ (∃ uid acc, ai_auto_update_user_id f = Some uid ∧ users w !! uid = Some acc
                   ∧ has_active_premium_license acc = true) →
     tasks_for (id f) (queue w') = tasks_for (id f) (queue w)
     ∧ get_field (id f) w' = Some (disable_auto_update f)
     ∧ ai_auto_update (disable_auto_update f) = false).
Proof.
  intros Ht Hnd Hf Htid Hauto w' ids. subst w' ids.
  unfold create_rows. rewrite Ht.
  destruct (insert_rows _ _ _) as [[next' ids] m'] eqn:Hins. simpl.
  apply insert_rows_spec in Hins as [_ [_ Hnew]].
  set (g := fun f0 => if Z.eqb (table_id f0) tid
                      then after_rows_created ids w f0 else (f0, [])).
  assert (∀ f0, id (g f0).1 = id f0) as g_id.
  { intros f0. unfold g, after_rows_created.
    destruct (Z.eqb _ _), (ai_auto_update f0); try done.
    by destruct (auto_update_user f0 w). }
  assert (∀ f0, Forall (fun a => a.1.2 = id f0) (g f0).2) as g_tasks.
  { intros f0. unfold g, after_rows_created.
    destruct (Z.eqb _ _), (ai_auto_update f0); try by constructor.
    destruct (auto_update_user f0 w); by repeat constructor. }
  assert (g f = after_rows_created ids w f) as Hgf.
  { unfold g. by rewrite Htid, Z.eqb_refl. }
  unfold after_rows_created in Hgf. rewrite Hauto in Hgf.
  split; [| split].
  - eexists. split; [apply lookup_insert_eq | done].
  - intros uid acc Huid Hacc Hlic.
    assert (auto_update_user f w = Some uid) as Hok.
    { unfold auto_update_user. rewrite Huid. simpl. rewrite Hacc. simpl.
      by rewrite Hlic. }
    rewrite Hok in Hgf. unfold get_field. simpl. fold g.
    rewrite (find_field_after g g_id f _ Hnd Hf).
    rewrite tasks_for_app, (tasks_for_field g g_tasks f _ Hnd Hf). by rewrite Hgf.
  - intros Hno.
    assert (auto_update_user f w = None) as Hnone.
    { unfold auto_update_user.
      destruct (ai_auto_update_user_id f) as [uid |] eqn:Huid; [| done]. simpl.
      destruct (users w !! uid) as [acc |] eqn:Hacc; [| done]. simpl.
      destruct (has_active_premium_license acc) eqn:Hlic; [| done].
      exfalso. apply Hno. by exists uid, acc. }
    rewrite Hnone in Hgf. unfold get_field. simpl. fold g.
    rewrite (find_field_after g g_id f _ Hnd Hf).
    rewrite tasks_for_app, (tasks_for_field g g_tasks f _ Hnd Hf). rewrite Hgf. simpl.
    by rewrite app_nil_r.
Qed.

End AutoUpdateProperties.

(** ** Worked runs *)

Section WorkedRuns.

Local Abbreviation demo_run := (create_workflow demo_create_workflow demo_registry_get
                                                 demo_create_node demo_user demo_automation).
Local Abbreviation demo_run_locals :=
  (create_workflow_locals demo_create_workflow demo_registry_get
                          demo_create_node demo_user demo_automation).

(** [test_create_workflows]: workflow, trigger, then the two actions, the
    second one behind the first. *)
Example demo_workflow_calls :
  demo_run demo_workflow demo_state
  = (State 14 [ demo_workflow_call "Process Orders";
                demo_trigger_call "Process Orders";
                demo_node_call "Process Orders" 11 12;
                demo_node_call "Process Orders" 12 13 ],
     Ok (demo_orm_wf "Process Orders")).
Proof. vm_compute. reflexivity. Qed.


(** A reference to a node further down the list: the run stops after the
    trigger. *)
Lemma create_workflow_unknown_previous_node_ref_witness :
  demo_run (WorkflowCreate.mk "wf" demo_trigger ([] ++ demo_forward :: [demo_later]))
           demo_state
  = (State 12 [demo_workflow_call "wf"; demo_trigger_call "wf"],
     Raise (ValueError "Previous node ref 'later' not found in mapping")).
Proof.
  apply (create_workflow_unknown_previous_node_ref
           demo_create_workflow demo_registry_get demo_create_node
           demo_user demo_automation "wf" demo_trigger [] demo_forward [demo_later]
           demo_state (State 12 [demo_workflow_call "wf"; demo_trigger_call "wf"])
           (demo_orm_wf "wf") demo_trigger_mapping).
  - vm_compute. reflexivity.
  - compute_done.
Defined.

(** Two nodes with the ref ["a"]: both are created, and ["a"] then stands
    for the second one. *)
Lemma node_mapping_registers_created_nodes_witness :
  demo_duplicates_mapping !! KStr "a"
  = Some (AutomationNode.mk 13, OfNode (demo_create_row "a" "a"))
  ∧ demo_duplicates_mapping !! KInt 12
    = Some (AutomationNode.mk 12, OfNode (demo_create_row "a" "trigger1"))
  ∧ (∀ k, is_Some (demo_duplicates_mapping !! k)
          ↔ k ∈ [KStr "trigger1"; KInt 11; KStr "a"; KInt 12; KStr "a"; KInt 13]).
Proof.
  destruct (node_mapping_registers_created_nodes
              demo_create_workflow demo_registry_get demo_create_node
              demo_user demo_automation "wf" demo_trigger demo_duplicates
              demo_state demo_duplicates_state (demo_orm_wf "wf")
              demo_duplicates_mapping)
    as (_ & Hkeys & Hlatest & _).
  { vm_compute. reflexivity. }
  split; [| split].
  - rewrite Hlatest. vm_compute. reflexivity.
  - rewrite Hlatest. vm_compute. reflexivity.
  - exact Hkeys.
Defined.

(** The node behind the duplicated ref is linked to the later of the two. *)
Example demo_duplicates_resolution :
  demo_run (WorkflowCreate.mk "wf" demo_trigger (demo_duplicates ++ [demo_after_duplicate]))
           demo_state
  = (State 15 (calls demo_duplicates_state ++ [demo_node_call "wf" 13 14]),
     Ok (demo_orm_wf "wf")).
Proof. vm_compute. reflexivity. Qed.

Lemma get_workflow_same_workspace_only_witness :
  (get_workflow demo_get_workflow 3 demo_user (Workspace.mk 4) demo_state).2
  = Raise (ValueError "Workflow not in workspace")
  ∧ (get_workflow demo_get_workflow 3 demo_user (Workspace.mk 3) demo_state).2
    = Ok (AutomationWorkflow.mk 3 "wf" (Automation.mk 7 (Some 3))).
Proof.
  split.
  - apply (proj2 (get_workflow_same_workspace_only
                    demo_get_workflow 3 demo_user (Workspace.mk 4) demo_state)
                 (AutomationWorkflow.mk 3 "wf" (Automation.mk 7 (Some 3)))).
    + reflexivity.
    + simpl. discriminate.
  - apply (proj1 (get_workflow_same_workspace_only
                    demo_get_workflow 3 demo_user (Workspace.mk 3) demo_state)).
    split; reflexivity.
Defined.

(** The label ["big"] is carried by the first and the third branch of
    [demo_router]; the first one is taken. *)
Lemma to_orm_reference_node_output_witness :
  EdgeCreate.to_orm_reference_node (EdgeCreate.mk "router1" "big") demo_router_mapping
  = Ok (12, "uid-1")
  ∧ EdgeCreate.to_orm_reference_node (EdgeCreate.mk "router1" "") demo_router_mapping
    = Ok (12, "").
Proof.
  split.
  - destruct (proj1 (to_orm_reference_node_output
                       (EdgeCreate.mk "router1" "big") demo_router_mapping
                       (AutomationNode.mk 12) (OfNode (Router demo_router))
                       eq_refl))
      as [r [Hr [Hfirst _]]]; [discriminate | reflexivity |].
    injection Hr as <-.
    apply (Hfirst [] (RouterEdgeCreate.mk "big" "amount over 100" "uid-1")
                  [ RouterEdgeCreate.mk "small" "" "uid-2";
                    RouterEdgeCreate.mk "big" "again" "uid-3" ]);
      [reflexivity | constructor | reflexivity].
  - apply (proj2 (to_orm_reference_node_output
                    (EdgeCreate.mk "router1" "") demo_router_mapping
                    (AutomationNode.mk 12) (OfNode (Router demo_router))
                    eq_refl)).
    by left.
Defined.

Lemma trigger_to_orm_service_dict_cases_witness :
  TriggerNodeCreate.to_orm_service_dict
    (TriggerNodeCreate.mk "Every morning" TriggerType.periodic "trigger1"
       (Some (PeriodicTriggerSettings.mk Interval.DAY (Some 30) (Some 8) None (Some 1)))
       (Some (RowsTriggersSettings.mk 999)))
  = [ ("interval", PStr "DAY"); ("minute", PInt 30); ("hour", PInt 8);
      ("day_of_week", PNone); ("day_of_month", PInt 1) ]
  ∧ TriggerNodeCreate.to_orm_service_dict
      (TriggerNodeCreate.mk "Rows" TriggerType.rows_updated "trigger1" None
                            (Some (RowsTriggersSettings.mk 999)))
    = [ ("table_id", PInt 999) ]
  ∧ TriggerNodeCreate.to_orm_service_dict demo_trigger = [].
Proof.
  split; [| split].
  - apply (proj1 (trigger_to_orm_service_dict_cases _)
                 (PeriodicTriggerSettings.mk Interval.DAY (Some 30) (Some 8) None (Some 1)));
      reflexivity.
  - apply (proj1 (proj2 (trigger_to_orm_service_dict_cases _))
                 (RowsTriggersSettings.mk 999)); [| reflexivity].
    compute_done.
  - apply (proj1 (proj2 (proj2 (trigger_to_orm_service_dict_cases _)))).
    + intros [_ [p Hp]]. discriminate Hp.
    + intros [_ [r Hr]]. discriminate Hr.
Defined.

End WorkedRuns.

Section WorkedTasks.

Import AiField.

(** [test_generate_ai_field_value_view_generative_ai_parse_formula] *)
Lemma generate_ai_values_for_rows_stores_and_signals_witness :
  ∃ updated,
    generate_ai_values_for_rows demo_prompt 1 5 [1] (demo_world false demo_hello_field)
    = (mkWorld {[ 1 := mkAccount false ]} [demo_hello_field]
               (<[1 := store_rows demo_table updated]> {[ 1 := demo_table ]})
               [rows_updated updated {[ 5 ]}] [],
       Ok tt)
    ∧ updated
      = [mkRow 1 (<[5 := "Generated with temperature None: Hello Bram Wiepjes"]>
                    demo_cells)]
    ∧ rows (store_rows demo_table updated) !! 1
      = Some (<[5 := "Generated with temperature None: Hello Bram Wiepjes"]> demo_cells).
Proof.
  destruct (generate_ai_values_for_rows_stores_and_signals
              demo_prompt 1 5 [1] (demo_world false demo_hello_field)
              (mkAccount false) demo_hello_field demo_table)
    as (updated & Hrun & Hrows & Hstored & _).
  - reflexivity.
  - reflexivity.
  - reflexivity.
  - intros i c _ _. eexists. reflexivity.
  - exists updated. split; [exact Hrun |]. split.
    + change (get_rows demo_table [1]) with [mkRow 1 demo_cells] in Hrows.
      apply Forall2_cons_inv_l in Hrows as (r' & rest & [v [Hv ->]] & Hrest & ->).
      apply Forall2_nil_inv_l in Hrest as ->.
      injection Hv as <-. reflexivity.
    + destruct (Hstored 1 demo_cells) as [v [Hv Hlookup]];
        [by left | reflexivity |].
      injection Hv as <-. exact Hlookup.
Defined.

(** [test_generate_ai_field_value_view_generative_ai_invalid_field]: the
    reference to field 0 stands for nothing. *)
Example demo_invalid_field_prompt :
  resolve_formula demo_invalid demo_cells = "Hello "
  ∧ resolve_formula demo_hello demo_cells = "Hello Bram Wiepjes".
Proof. split; reflexivity. Qed.

(** [test_generate_ai_field_value_view_generative_ai_invalid_prompt] *)
Lemma generate_ai_values_for_rows_prompt_error_witness :
  ∃ w',
    generate_ai_values_for_rows demo_prompt 1 5 [1] (demo_world false demo_error_field)
    = (w', Raise (GenerativeAIPromptError "Test error"))
    ∧ signals w'
      = [] ++ [rows_ai_values_generation_error [mkRow 1 demo_cells]
                                               demo_error_field "Test error"]
    ∧ tables w' = {[ 1 := demo_table ]}
    ∧ queue w' = []
    ∧ (∀ rs ids, rows_updated rs ids ∉ drop 0 (signals w')).
Proof.
  apply (generate_ai_values_for_rows_prompt_error
           demo_prompt 1 5 [1] (demo_world false demo_error_field)
           (mkAccount false) demo_error_field demo_table
           [] (mkRow 1 demo_cells) [] "Test error");
    try reflexivity.
  constructor.
Defined.

(** [test_generate_ai_field_value_auto_update] and
    [test_generate_ai_field_value_auto_update_no_license_user] *)
Lemma create_rows_auto_update_witness :
  tasks_for 5 (queue (create_rows 1 [ {[ 2 := "test" ]} ]
                                  (demo_world true (demo_auto_field (Some 1)))).1)
  = [(1, 5, [2])]
  ∧ tasks_for 5 (queue (create_rows 1 [ {[ 2 := "test" ]} ]
                                    (demo_world false (demo_auto_field (Some 1)))).1)
    = []
  ∧ get_field 5 (create_rows 1 [ {[ 2 := "test" ]} ]
                             (demo_world false (demo_auto_field (Some 1)))).1
    = Some (disable_auto_update (demo_auto_field (Some 1))).
Proof.
  split.
  - destruct (create_rows_auto_update 1 [ {[ 2 := "test" ]} ]
                (demo_world true (demo_auto_field (Some 1))) demo_table
                (demo_auto_field (Some 1)))
      as (_ & Hqueued & _);
      [reflexivity | apply NoDup_singleton | by left | reflexivity | reflexivity |].
    destruct (Hqueued 1 (mkAccount true) eq_refl eq_refl eq_refl) as [Htasks _].
    exact Htasks.
  - destruct (create_rows_auto_update 1 [ {[ 2 := "test" ]} ]
                (demo_world false (demo_auto_field (Some 1))) demo_table
                (demo_auto_field (Some 1)))
      as (_ & _ & Hoff);
      [reflexivity | apply NoDup_singleton | by left | reflexivity | reflexivity |].
    destruct Hoff as (Htasks & Hfield & _); [| split; [exact Htasks | exact Hfield]].
    intros (uid & acc & Huid & Hacc & Hlic). injection Huid as <-.
    change (users (demo_world false (demo_auto_field (Some 1))) !! 1)
      with (Some (mkAccount false)) in Hacc.
    injection Hacc as <-. discriminate Hlic.
Defined.

(** [test_generate_ai_field_auto_update_without_user]: the user is gone,
    the field's user reference is null. *)
Example demo_auto_update_without_user :
  let w' := (create_rows 1 [ {[ 2 := "test text value" ]} ]
                         (demo_world true (demo_auto_field None))).1 in
  queue w' = [] ∧ ai_auto_update <$> get_field 5 w' = Some false.
Proof. split; reflexivity. Qed.

End WorkedTasks.

(** * Further properties *)

(** ** node.py: edge resolution *)

Section EdgeResolution.

Implicit Types (self : EdgeCreate.t) (m : mapping) (r : RouterNodeCreate.t).

Lemma next_uid_None_inv (edges : list RouterEdgeCreate.t) lbl :
  EdgeCreate.next_uid edges lbl = None →
  Forall (fun e => RouterEdgeCreate.label e ≠ lbl) edges.
Proof.
  induction edges as [| e edges IH]; simpl; [constructor |].
  destruct (String.eqb_spec (RouterEdgeCreate.label e) lbl) as [| Hne]; [done |].
  intros H. constructor; [done | by apply IH].
Qed.

Lemma next_uid_elem (edges : list RouterEdgeCreate.t) lbl uid :
  EdgeCreate.next_uid edges lbl = Some uid →
  ∃ e, e ∈ edges ∧ RouterEdgeCreate.label e = lbl ∧ RouterEdgeCreate._uid e = uid.
Proof.
  induction edges as [| e edges IH]; simpl; [done |].
  destruct (String.eqb_spec (RouterEdgeCreate.label e) lbl) as [Heq | Hne].
  - intros [= <-]. exists e. split; [by left | done].
  - intros H. destruct (IH H) as (e' & He' & Hl & Hu). exists e'.
    split; [by right | done].
Qed.

Lemma next_uid_of_member (edges : list RouterEdgeCreate.t) edge :
  edge ∈ edges →
  ∃ e, e ∈ edges ∧ RouterEdgeCreate.label e = RouterEdgeCreate.label edge
       ∧ EdgeCreate.next_uid edges (RouterEdgeCreate.label edge)
         = Some (RouterEdgeCreate._uid e).
Proof.
  induction edges as [| e edges IH]; intros Hin; [by apply elem_of_nil in Hin |].
  simpl.
  destruct (String.eqb_spec (RouterEdgeCreate.label e) (RouterEdgeCreate.label edge))
    as [Heq | Hne].
  - exists e. split; [by left | done].
  - apply elem_of_cons in Hin as [-> | Hin]; [done |].
    destruct (IH Hin) as (e' & He' & Hl & Hu). exists e'.
    split; [by right | done].
Qed.

Lemma str_truthy_inv (s : string) : str_truthy s = true → s ≠ "".
Proof.
  unfold str_truthy. intros H ->. by rewrite String.eqb_refl in H.
Qed.

(** X1: the only exceptions of [to_orm_reference_node] are its two
    [ValueError]s: the one for a [previous_node_ref] that is no key of the
    mapping, and the one for a non-empty label that no branch of the previous
    router carries.  The [edges] attribute is never asked of a node that has
    none. *)
Theorem to_orm_reference_node_raises_only_value_errors self m e :
  EdgeCreate.to_orm_reference_node self m = Raise e →
  (m !! KStr (EdgeCreate.previous_node_ref self) = None
   ∧ e = ValueError ("Previous node ref '" +:+ EdgeCreate.previous_node_ref self
                     +:+ "' not found in mapping"))
  ∨ (∃ orm r,
       m !! KStr (EdgeCreate.previous_node_ref self) = Some (orm, OfNode (Router r))
       ∧ EdgeCreate.router_edge_label self ≠ ""
       ∧ Forall (fun b => RouterEdgeCreate.label b ≠ EdgeCreate.router_edge_label self)
                (RouterNodeCreate.edges r)
       ∧ e = ValueError ("Branch label '" +:+ EdgeCreate.router_edge_label self
                         +:+ "' not found in previous router node")).
Proof.
  unfold EdgeCreate.to_orm_reference_node.
  destruct (m !! _) as [[orm nc] |] eqn:Hm.
  2: { intros [= <-]. by left. }
  destruct (str_truthy _ && _) eqn:Hcond; [| done].
  apply andb_true_iff in Hcond as [Hlbl Hty].
  apply str_truthy_inv in Hlbl. apply String.eqb_eq in Hty.
  destruct (schema_type_router nc Hty) as [r ->]. simpl.
  destruct (EdgeCreate.next_uid _ _) eqn:Hnext; [done |].
  intros [= <-]. right. exists orm, r. repeat split; [done |].
  by apply next_uid_None_inv.
Qed.

(** X2: edge resolution reads the mapping under [str] keys only: adding,
    changing or removing an entry under an ORM id changes no result. *)
Theorem to_orm_reference_node_ignores_id_keys self m (i : Z)
        (v : AutomationNode.t * NodeCreate) :
  EdgeCreate.to_orm_reference_node self (<[KInt i := v]> m)
  = EdgeCreate.to_orm_reference_node self m
  ∧ EdgeCreate.to_orm_reference_node self (delete (KInt i) m)
    = EdgeCreate.to_orm_reference_node self m.
Proof.
  unfold EdgeCreate.to_orm_reference_node.
  by rewrite lookup_insert_ne, lookup_delete_ne.
Qed.

(** X3: every non-empty branch label of a router that is in the mapping
    resolves, and the uid it resolves to is listed with that label in the
    router's own service dict. *)
Theorem router_branch_label_resolves m (ref : string) orm r edge :
  m !! KStr ref = Some (orm, OfNode (Router r)) →
  edge ∈ RouterNodeCreate.edges r →
  RouterEdgeCreate.label edge ≠ "" →
  ∃ uid branches,
    EdgeCreate.to_orm_reference_node
      (EdgeCreate.mk ref (RouterEdgeCreate.label edge)) m
    = Ok (AutomationNode.id orm, uid)
    ∧ RouterNodeCreate.to_orm_service_dict r = [("edges", PList branches)]
    ∧ PDict [("uid", PStr uid); ("label", PStr (RouterEdgeCreate.label edge))]
      ∈ branches.
Proof.
  intros Hm Hin Hlbl.
  destruct (next_uid_of_member _ _ Hin) as (e & He & Hl & Hnext).
  exists (RouterEdgeCreate._uid e). eexists. split; [| split; [reflexivity |]].
  - unfold EdgeCreate.to_orm_reference_node.
    cbn [EdgeCreate.previous_node_ref EdgeCreate.router_edge_label].
    rewrite Hm, (str_truthy_true _ Hlbl). simpl. by rewrite Hnext.
  - apply list_elem_of_fmap. exists e. split; [| done].
    unfold RouterEdgeCreate.to_orm_service_dict. by rewrite Hl.
Qed.

Lemma next_uid_shadow (before after : list RouterEdgeCreate.t) edge lbl :
  NoDup (map RouterEdgeCreate._uid (before ++ edge :: after)) →
  EdgeCreate.next_uid (before ++ edge :: after) lbl
  = Some (RouterEdgeCreate._uid edge) →
  Forall (fun e => RouterEdgeCreate.label e ≠ lbl) before
  ∧ RouterEdgeCreate.label edge = lbl.
Proof.
  induction before as [| b before IH]; simpl; intros Hnd Hnext.
  - split; [constructor |].
    destruct (String.eqb_spec (RouterEdgeCreate.label edge) lbl) as [| Hne]; [done |].
    apply next_uid_elem in Hnext as (e & He & _ & Hu).
    apply NoDup_cons in Hnd as [Hnot _]. exfalso. apply Hnot.
    rewrite <- Hu. by apply (list_elem_of_fmap_2 RouterEdgeCreate._uid).
  - apply NoDup_cons in Hnd as [Hnot Hnd].
    destruct (String.eqb_spec (RouterEdgeCreate.label b) lbl) as [Heq | Hne].
    + injection Hnext as Hu. exfalso. apply Hnot. rewrite Hu.
      apply (list_elem_of_fmap_2 RouterEdgeCreate._uid).
      apply elem_of_app. right. by left.
    + destruct (IH Hnd Hnext) as [Hall Hl]. split; [by constructor | done].
Qed.

(** X4: with distinct, non-empty branch uids, a branch whose label repeats
    the label of an earlier branch of the same router is never the one a node
    is linked to. *)
Theorem shadowed_branch_never_selected self m orm r before edge after earlier
        (rid : Z) :
  m !! KStr (EdgeCreate.previous_node_ref self) = Some (orm, OfNode (Router r)) →
  RouterNodeCreate.edges r = before ++ edge :: after →
  NoDup (map RouterEdgeCreate._uid (RouterNodeCreate.edges r)) →
  RouterEdgeCreate._uid edge ≠ "" →
  earlier ∈ before →
  RouterEdgeCreate.label earlier = RouterEdgeCreate.label edge →
  EdgeCreate.to_orm_reference_node self m ≠ Ok (rid, RouterEdgeCreate._uid edge).
Proof.
  intros Hm Hedges Hnd Hne Hin Hsame.
  unfold EdgeCreate.to_orm_reference_node. rewrite Hm.
  destruct (str_truthy _ && _); [| by intros [= _ Hu]]. simpl.
  destruct (EdgeCreate.next_uid _ _) as [uid |] eqn:Hnext; [| done].
  intros [= _ ->]. rewrite Hedges in Hnd, Hnext.
  destruct (next_uid_shadow _ _ _ _ Hnd Hnext) as [Hall Hl].
  rewrite Forall_forall in Hall. apply (Hall earlier Hin). congruence.
Qed.

End EdgeResolution.

(** ** node.py: what the service dicts keep *)

Section ServiceDicts.

Lemma list_ascii_of_string_append (s t : string) :
  String.list_ascii_of_string (s +:+ t) = String.list_ascii_of_string s ++ String.list_ascii_of_string t.
Proof. induction s as [| a s IH]; simpl; [done |]. by rewrite IH. Qed.

Lemma list_ascii_of_string_inj (s t : string) :
  String.list_ascii_of_string s = String.list_ascii_of_string t → s = t.
Proof.
  intros H. rewrite <- (String.string_of_list_ascii_of_string s),
              <- (String.string_of_list_ascii_of_string t). by rewrite H.
Qed.

Lemma quoted_inj (s t : string) : quoted s = quoted t → s = t.
Proof.
  unfold quoted. intros H. apply (f_equal String.list_ascii_of_string) in H.
  rewrite !list_ascii_of_string_append in H. simpl in H.
  injection H as H. apply app_inv_tail in H. by apply list_ascii_of_string_inj.
Qed.

Lemma body_type_name_inj (a b : BodyType.t) : BodyType.name a = BodyType.name b → a = b.
Proof. by destruct a, b. Qed.

Lemma output_type_name_inj (a b : OutputType.t) :
  OutputType.name a = OutputType.name b → a = b.
Proof. by destruct a, b. Qed.

Lemma opt_float_inj (a b : option float) : opt_float a = opt_float b → a = b.
Proof. destruct a, b; simpl; intros H; by inversion H. Qed.

Lemma map_PStr_inj (l1 l2 : list string) : map PStr l1 = map PStr l2 → l1 = l2.
Proof.
  revert l2. induction l1 as [| x l1 IH]; intros [| y l2]; simpl; try done.
  intros [= -> H]. by rewrite (IH _ H).
Qed.

(** X5: the three row actions translate alike: two row-action nodes, of the
    same kind or not, have equal service dicts exactly when they name the
    same table; the row of a [delete_row] node is left out like the values
    and the row of the other two. *)
Theorem row_action_service_dicts_equal_iff_same_table (n1 n2 : AnyNodeCreate)
        (t1 t2 : Z) :
  row_table_id n1 = Some t1 → row_table_id n2 = Some t2 →
  (Node.to_orm_service_dict n1 = Node.to_orm_service_dict n2 ↔ t1 = t2).
Proof.
  intros H1 H2.
  destruct n1; simpl in H1; try discriminate; injection H1 as <-;
    destruct n2; simpl in H2; try discriminate; injection H2 as <-;
    simpl; unfold CreateRowActionCreate.to_orm_service_dict,
           UpdateRowActionCreate.to_orm_service_dict,
           DeleteRowActionCreate.to_orm_service_dict,
           RowActionService.to_orm_service_dict;
    (split; [by intros [= ->] | by intros ->]).
Qed.

(** X6: the service dict of a send-email node keeps the recipients, the
    subject, the body and the body type, each between single quotes and
    otherwise as given; of [cc_emails] and [bcc_emails] it keeps the text,
    so that an absent one and an empty one give the same dict. *)
Theorem send_email_service_dict_equal_iff (a b : SendEmailActionCreate.t) :
  SendEmailActionCreate.to_orm_service_dict a
  = SendEmailActionCreate.to_orm_service_dict b
  ↔ SendEmailActionCreate.to_emails a = SendEmailActionCreate.to_emails b
    ∧ or_empty (SendEmailActionCreate.cc_emails a)
      = or_empty (SendEmailActionCreate.cc_emails b)
    ∧ or_empty (SendEmailActionCreate.bcc_emails a)
      = or_empty (SendEmailActionCreate.bcc_emails b)
    ∧ SendEmailActionCreate.subject a = SendEmailActionCreate.subject b
    ∧ SendEmailActionCreate.body a = SendEmailActionCreate.body b
    ∧ SendEmailActionCreate.body_type a = SendEmailActionCreate.body_type b.
Proof.
  unfold SendEmailActionCreate.to_orm_service_dict. split.
  - intros H. repeat split; try (apply quoted_inj; congruence).
    apply body_type_name_inj, quoted_inj. congruence.
  - intros (-> & -> & -> & -> & -> & ->). done.
Qed.

(** X7: the service dict of an AI agent node keeps the prompt, the
    temperature and the output type; it keeps the choices for the output type
    ['choice'] only, an absent list counting as an empty one, and drops them
    for ['text']. *)
Theorem ai_agent_service_dict_equal_iff (a b : AiAgentNodeCreate.t) :
  AiAgentNodeCreate.to_orm_service_dict a = AiAgentNodeCreate.to_orm_service_dict b
  ↔ AiAgentNodeCreate.prompt a = AiAgentNodeCreate.prompt b
    ∧ AiAgentNodeCreate.temperature a = AiAgentNodeCreate.temperature b
    ∧ AiAgentNodeCreate.output_type a = AiAgentNodeCreate.output_type b
    ∧ effective_choices a = effective_choices b.
Proof.
  unfold AiAgentNodeCreate.to_orm_service_dict, effective_choices. split.
  - intros H.
    assert (AiAgentNodeCreate.output_type a = AiAgentNodeCreate.output_type b) as Hty
      by (apply output_type_name_inj; congruence).
    assert (AiAgentNodeCreate.temperature a = AiAgentNodeCreate.temperature b)
      by (apply opt_float_inj; congruence).
    assert (AiAgentNodeCreate.prompt a = AiAgentNodeCreate.prompt b)
      by (apply quoted_inj; congruence).
    repeat split; try done.
    assert ((if String.eqb (OutputType.name (AiAgentNodeCreate.output_type a)) "choice"
             then PList (map PStr (match AiAgentNodeCreate.choices a with
                                   | Some l => l | None => [] end))
             else PList [])
            = (if String.eqb (OutputType.name (AiAgentNodeCreate.output_type b)) "choice"
               then PList (map PStr (match AiAgentNodeCreate.choices b with
                                     | Some l => l | None => [] end))
               else PList [])) as Hchoices by congruence.
    clear H. rewrite Hty in *.
    destruct (AiAgentNodeCreate.output_type b); simpl in *; [done |].
    destruct (AiAgentNodeCreate.choices a), (AiAgentNodeCreate.choices b);
      simpl in *; apply map_PStr_inj; simpl; congruence.
  - intros (-> & -> & Hty & Hchoices). rewrite Hty in *.
    destruct (AiAgentNodeCreate.output_type b); simpl in *; [done |].
    destruct (AiAgentNodeCreate.choices a), (AiAgentNodeCreate.choices b);
      simpl in *; by subst.
Qed.

(** X8: the [type] of a node tells which member of the union it is: two
    nodes have the same [type] exactly when they are of the same kind; and no
    node has the [type] of a trigger. *)
Theorem node_type_discriminates (n1 n2 : AnyNodeCreate) (t : TriggerNodeCreate.t) :
  (Node.type n1 = Node.type n2 ↔ kind_of n1 = kind_of n2)
  ∧ TriggerNodeCreate.type t ≠ Node.type n1.
Proof.
  split.
  - destruct n1, n2; simpl; split; intros H; done.
  - unfold TriggerNodeCreate.type.
    destruct (TriggerNodeCreate.type_ t), n1; simpl; discriminate.
Qed.

End ServiceDicts.

(** ** utils.py: runs of [create_workflow] and [get_workflow] *)

Section RunProperties.

Context {DB : Type}.
Variable get_wf : User.t -> Z -> DB -> result AutomationWorkflow.t.
Variable create_wf : User.t -> Z -> string -> DB -> DB * result AutomationWorkflow.t.
Variable registry : string -> result NodeType.t.
Variable create_nd : create_node_args -> DB -> DB * result AutomationNode.t.

Local Abbreviation run_nodes := (create_nodes registry create_nd).
Local Abbreviation run_locals := (create_workflow_locals create_wf registry create_nd).
Local Abbreviation run := (create_workflow create_wf registry create_nd).

(** The calls of a run, read as a whole (the loop invariant put under the
    two calls that come before the loop). *)
Lemma create_workflow_trace user automation workflow (s s' : state DB) r :
  run user automation workflow s = (s', r) →
  ∃ evs, calls s' = calls s ++ evs
       ∧ workflow_in_order registry user automation workflow evs r.
Proof.
  rewrite create_workflow_eq, create_workflow_locals_eq. cbv zeta.
  destruct (create_wf _ _ _ _) as [d1 [e | orm_wf]].
  { intros [= <- <-]. eexists. split; [done |]. constructor. }
  destruct (registry _) as [e | nt] eqn:Hreg.
  { intros [= <- <-]. eexists. split; [done |].
    apply (wio_next _ _ _ _ orm_wf [] (Some e)). by constructor. }
  destruct (create_nd _ _) as [d2 [e | orm_trigger]].
  { intros [= <- <-]. simpl. rewrite <- app_assoc. eexists. split; [done |].
    apply (wio_next _ _ _ _ orm_wf [_] (Some e)). by constructor. }
  destruct (create_nodes _ _ _ _ _ _ _) as [s2 r2] eqn:Hloop.
  apply (create_nodes_run _ _ _ _ _
           [(orm_trigger, OfTrigger (WorkflowCreate.trigger workflow))])
    in Hloop as [evs [Hcalls [Horder _]]].
  2: { intros k. rewrite <- (app_nil_l [_]). apply register_latest, empty_latest. }
  simpl in Hcalls. rewrite <- !app_assoc in Hcalls. simpl in Hcalls.
  intros Hr.
  assert (s' = s2 ∧ r = match raised r2 with
                        | None => Ok orm_wf
                        | Some e => Raise e
                        end) as [-> ->]
    by (destruct r2; by injection Hr as <- <-).
  eexists. split; [exact Hcalls |]. constructor. by constructor.
Qed.


Lemma nodes_in_order_refs user wf created nodes evs outcome :
  nodes_in_order registry user wf created nodes evs outcome → outcome = None →
  ∀ pre n post, nodes = pre ++ n :: post →
    Node.previous_node_ref n
      ∈ map (fun c : entry => Schema.ref c.2) created ++ map Node.ref pre.
Proof.
  induction 1 as [| | | | created node rest args orm evs outcome Hcall _ IH];
    intros Hcomplete pre n post Hnodes; try done.
  - by destruct pre.
  - destruct pre as [| p pre]; simpl in Hnodes; injection Hnodes as -> ->.
    + destruct Hcall as (_ & _ & _ & _ & _ & prev & out & Hprev & _).
      unfold latest_with_ref in Hprev. apply find_some in Hprev as [Hin Href].
      apply String.eqb_eq in Href. simpl. rewrite app_nil_r, <- Href.
      apply (list_elem_of_fmap_2 (fun c : entry => Schema.ref c.2)).
      apply list_elem_of_In. by apply in_rev.
    + specialize (IH Hcomplete pre n post eq_refl).
      rewrite map_app in IH. simpl in IH. by rewrite <- app_assoc in IH.
Qed.


Lemma create_nodes_keeps_keys user wf nodes : ∀ (m m' : mapping) (s s' : state DB),
  run_nodes user wf nodes m s = (s', Ok m') →
  ∀ k, is_Some (m !! k) → is_Some (m' !! k).
Proof.
  induction nodes as [| node rest IH]; intros m m' s s' Hrun k Hk.
  - by injection Hrun as _ <-.
  - rewrite create_nodes_cons in Hrun.
    destruct (EdgeCreate.to_orm_reference_node _ _) as [e | [rid out]]; [done |].
    destruct (registry _) as [e | nt]; [done |].
    simpl in Hrun. destruct (create_nd _ _) as [d [e | orm]]; [done |].
    apply (IH _ _ _ _ Hrun). unfold register.
    rewrite !lookup_insert. repeat case_decide; eauto.
Qed.


(** X10: [create_workflow] returns only for node lists in which every node
    refers to the trigger or to a node before it in the list. *)
Theorem create_workflow_returns_only_for_ordered_refs
        user automation name trigger nodes (s s' : state DB) orm_wf :
  run user automation (WorkflowCreate.mk name trigger nodes) s = (s', Ok orm_wf) →
  ∀ pre n post, nodes = pre ++ n :: post →
    Node.previous_node_ref n ∈ TriggerNodeCreate.ref trigger :: map Node.ref pre.
Proof.
  intros Hrun pre n post Hnodes.
  destruct (create_workflow_trace _ _ _ _ _ _ Hrun) as [evs [_ Horder]].
  inversion Horder as [| wf evs1 outcome Htrigger Hevs Hret].
  destruct outcome as [e |]; [done |].
  inversion Htrigger as [| | args orm_trigger evs2 c Hcall Hloop Hevs1 Hc].
  simpl in Hloop.
  apply (nodes_in_order_refs _ _ _ _ _ _ Hloop eq_refl pre n post Hnodes).
Qed.


(** X12: when the loop comes to a node that names a branch label and whose
    previous node is a router without a branch of that label,
    [create_workflow] raises the [ValueError] naming the label and leaves
    the state as it was after the node before: the node service is not
    called for the node, and what was created before stays. *)
Theorem create_workflow_unknown_branch_label
        user automation name trigger pre node post
        (s s1 : state DB) orm_wf (m : mapping) orm r :
  run_locals user automation (WorkflowCreate.mk name trigger pre) s
  = (s1, Ok (orm_wf, m)) →
  latest_with_ref (created_of trigger pre (drop (length (calls s)) (calls s1)))
                  (Node.previous_node_ref node)
  = Some (orm, OfNode (Router r)) →
  Node.router_edge_label node ≠ "" →
  Forall (fun b => RouterEdgeCreate.label b ≠ Node.router_edge_label node)
         (RouterNodeCreate.edges r) →
  run user automation (WorkflowCreate.mk name trigger (pre ++ node :: post)) s
  = (s1, Raise (ValueError ("Branch label '" +:+ Node.router_edge_label node
                            +:+ "' not found in previous router node"))).
Proof.
  intros Hpre Hprev Hlbl Hnone.
  destruct (create_workflow_locals_ok _ _ _ _ _ _ _ _ _ _ _ _ Hpre)
    as [evs [Hcalls [_ Hm]]].
  rewrite Hcalls, drop_app_length, <- latest_registered_str, <- Hm in Hprev.
  rewrite create_workflow_eq, create_workflow_locals_app, Hpre, create_nodes_cons.
  unfold EdgeCreate.to_orm_reference_node, EdgeCreate.of_node.
  cbn [EdgeCreate.previous_node_ref EdgeCreate.router_edge_label].
  rewrite Hprev, (str_truthy_true _ Hlbl). simpl.
  by rewrite (next_uid_none _ _ Hnone).
Qed.

(** X13: an exception of a host service passes through [create_workflow]
    unchanged and nothing is taken back: when the workflow service raises,
    no node call is made; when the registry does not know the trigger's type,
    the workflow record stays created, without any node. *)
Theorem create_workflow_host_failure user automation workflow (s : state DB) :
  (∀ d e,
      create_wf user (Automation.id automation) (WorkflowCreate.name workflow) (db s)
      = (d, Raise e) →
      run user automation workflow s
      = (State d (calls s ++ [CreateWorkflow user (Automation.id automation)
                                (WorkflowCreate.name workflow) (Raise e)]),
         Raise e))
  ∧ (∀ d orm_wf e,
      create_wf user (Automation.id automation) (WorkflowCreate.name workflow) (db s)
      = (d, Ok orm_wf) →
      registry (TriggerNodeCreate.type (WorkflowCreate.trigger workflow)) = Raise e →
      run user automation workflow s
      = (State d (calls s ++ [CreateWorkflow user (Automation.id automation)
                                (WorkflowCreate.name workflow) (Ok orm_wf)]),
         Raise e)).
Proof.
  split.
  - intros d e Hwf.
    by rewrite create_workflow_eq, create_workflow_locals_eq; cbv zeta; rewrite Hwf.
  - intros d orm_wf e Hwf Hreg.
    by rewrite create_workflow_eq, create_workflow_locals_eq; cbv zeta;
      rewrite Hwf, Hreg.
Qed.

(** X14: [get_workflow] raises in two cases and no other: the workflow
    service raised (the workflow does not exist, the user may not see it),
    and then its exception is passed on as it is; or the service found a
    workflow of another workspace, and then the [ValueError] is raised. *)
Theorem get_workflow_raises_iff (workflow_id : Z) (user : User.t)
        (workspace : Workspace.t) (s : state DB) (e : exn) :
  (get_workflow get_wf workflow_id user workspace s).2 = Raise e
  ↔ get_wf user workflow_id (db s) = Raise e
    ∨ (∃ w, get_wf user workflow_id (db s) = Ok w
            ∧ Automation.workspace_id (AutomationWorkflow.automation w)
              ≠ Some (Workspace.id workspace)
            ∧ e = ValueError "Workflow not in workspace").
Proof.
  unfold get_workflow, get_workflow_call, mbind, M_bind, lift, mret, M_ret.
  destruct (get_wf user workflow_id (db s)) as [e0 | w]; simpl.
  - split; [by left |]. by intros [H | (w & H & _)].
  - case_bool_decide as Hws; simpl.
    + split.
      * intros [= <-]. right. by exists w.
      * intros [H | (w' & _ & _ & ->)]; done.
    + split; [done |]. intros [H | (w' & [= <-] & Hne & _)]; done.
Qed.

(** X15: the loop never takes a key out of the mapping: a ref that resolves
    after some nodes of the list still resolves after more of them. *)
Theorem node_mapping_keeps_keys user automation name trigger pre post
        (s s1 s2 : state DB) wf1 wf2 (m1 m2 : mapping) :
  run_locals user automation (WorkflowCreate.mk name trigger pre) s
  = (s1, Ok (wf1, m1)) →
  run_locals user automation (WorkflowCreate.mk name trigger (pre ++ post)) s
  = (s2, Ok (wf2, m2)) →
  ∀ k, is_Some (m1 !! k) → is_Some (m2 !! k).
Proof.
  intros Hpre Hall k Hk. rewrite create_workflow_locals_app, Hpre in Hall.
  destruct (create_nodes _ _ _ _ post _ _) as [s3 [e | m3]] eqn:Hloop; [done |].
  injection Hall as _ _ <-. by apply (create_nodes_keeps_keys _ _ _ _ _ _ _ Hloop).
Qed.

Lemma edge_target_empty_label (created : list entry) (node : AnyNodeCreate) :
  Node.previous_node_ref node ∈ map (fun c : entry => Schema.ref c.2) created →
  Node.router_edge_label node = "" →
  ∃ rid, edge_target created node = Ok (rid, "").
Proof.
  intros Hin Hlbl. unfold edge_target. rewrite Hlbl.
  destruct (latest_with_ref _ _) as [[orm nc] |] eqn:Hprev.
  - destruct nc as [t | n]; [by eexists |]. destruct n; by eexists.
  - exfalso. apply list_elem_of_fmap in Hin as (c & Href & Hc).
    unfold latest_with_ref in Hprev. apply list_elem_of_In, in_rev in Hc.
    pose proof (find_none _ _ Hprev c Hc) as Hf. simpl in Hf.
    rewrite <- Href, String.eqb_refl in Hf. done.
Qed.

Lemma create_nodes_progress user wf nodes : ∀ created (m : mapping) (s : state DB),
  (∀ k, m !! k = latest_registered created k) →
  (∀ args d, ∃ d' orm, create_nd args d = (d', Ok orm)) →
  (∀ n, n ∈ nodes → ∃ nt, registry (Node.type n) = Ok nt) →
  (∀ n, n ∈ nodes → Node.router_edge_label n = "") →
  (∀ pre n post, nodes = pre ++ n :: post →
     Node.previous_node_ref n
       ∈ map (fun c : entry => Schema.ref c.2) created ++ map Node.ref pre) →
  ∃ s' m', run_nodes user wf nodes m s = (s', Ok m').
Proof.
  induction nodes as [| node rest IH]; intros created m s Hm Hnd Hreg Hlbl Hrefs.
  - by exists s, m.
  - rewrite create_nodes_cons, (to_orm_reference_node_target _ _ _ Hm).
    destruct (edge_target_empty_label created node) as [rid ->].
    { specialize (Hrefs [] node rest eq_refl). simpl in Hrefs.
      by rewrite app_nil_r in Hrefs. }
    { apply Hlbl. by left. }
    destruct (Hreg node) as [nt ->]; [by left |]. cbv zeta.
    destruct (Hnd (CreateNodeArgs user nt wf (Some rid) (Some "") (Node.label node)
                                  (Node.to_orm_service_dict node)) (db s))
      as (d & orm & ->).
    apply (IH (created ++ [(orm, OfNode node)])).
    + by apply register_latest.
    + done.
    + intros n Hn. apply Hreg. by right.
    + intros n Hn. apply Hlbl. by right.
    + intros pre n post ->.
      specialize (Hrefs (node :: pre) n post eq_refl).
      rewrite map_app. simpl in *. by rewrite <- app_assoc.
Qed.

(** X16: [create_workflow] returns the workflow the workflow service
    created whenever that service and the node service answer, the registry
    knows the trigger's and every node's type, no node names a branch label,
    and every node refers to the trigger or to a node before it in the
    list. *)
Theorem create_workflow_returns_for_ordered_refs
        user automation name trigger nodes (s : state DB) d1 orm_wf :
  create_wf user (Automation.id automation) name (db s) = (d1, Ok orm_wf) →
  (∀ args d, ∃ d' orm, create_nd args d = (d', Ok orm)) →
  (∃ nt, registry (TriggerNodeCreate.type trigger) = Ok nt) →
  (∀ n, n ∈ nodes → ∃ nt, registry (Node.type n) = Ok nt) →
  (∀ n, n ∈ nodes → Node.router_edge_label n = "") →
  (∀ pre n post, nodes = pre ++ n :: post →
     Node.previous_node_ref n ∈ TriggerNodeCreate.ref trigger :: map Node.ref pre) →
  ∃ s', run user automation (WorkflowCreate.mk name trigger nodes) s = (s', Ok orm_wf).
Proof.
  intros Hwf Hnd [nt Hnt] Hreg Hlbl Hrefs.
  rewrite create_workflow_eq, create_workflow_locals_eq. cbv zeta. simpl.
  rewrite Hwf, Hnt.
  destruct (Hnd (CreateNodeArgs user nt orm_wf None None (TriggerNodeCreate.label trigger)
                                (TriggerNodeCreate.to_orm_service_dict trigger)) d1)
    as (d2 & orm_trigger & ->).
  edestruct (create_nodes_progress user orm_wf nodes [(orm_trigger, OfTrigger trigger)])
    as (s' & m' & ->); [| done | done | done | | by eexists].
  - intros k. rewrite <- (app_nil_l [_]). apply register_latest, empty_latest.
  - intros pre n post Hnodes. by apply (Hrefs pre n post).
Qed.

End RunProperties.

(** ** Further worked runs *)

Section FurtherWorkedRuns.

Local Abbreviation demo_run := (create_workflow demo_create_workflow demo_registry_get
                                                 demo_create_node demo_user demo_automation).
Local Abbreviation demo_run_locals :=
  (create_workflow_locals demo_create_workflow demo_registry_get
                          demo_create_node demo_user demo_automation).

Lemma to_orm_reference_node_raises_only_value_errors_witness :
  (demo_trigger_mapping !! KStr "nowhere" = None
   ∧ ValueError "Previous node ref 'nowhere' not found in mapping"
     = ValueError ("Previous node ref '" +:+ "nowhere" +:+ "' not found in mapping"))
  ∨ (∃ orm r,
       demo_trigger_mapping !! KStr "nowhere" = Some (orm, OfNode (Router r))
       ∧ "" ≠ ""
       ∧ Forall (fun b => RouterEdgeCreate.label b ≠ "") (RouterNodeCreate.edges r)
       ∧ ValueError "Previous node ref 'nowhere' not found in mapping"
         = ValueError ("Branch label '" +:+ "" +:+ "' not found in previous router node")).
Proof.
  apply (to_orm_reference_node_raises_only_value_errors
           (EdgeCreate.mk "nowhere" "") demo_trigger_mapping).
  reflexivity.
Defined.

(** The third branch of [demo_router] shares its label with the first: the
    label resolves, to the first one's uid. *)
Lemma router_branch_label_resolves_witness :
  ∃ uid branches,
    EdgeCreate.to_orm_reference_node (EdgeCreate.mk "router1" "big") demo_router_mapping
    = Ok (12, uid)
    ∧ RouterNodeCreate.to_orm_service_dict demo_router = [("edges", PList branches)]
    ∧ PDict [("uid", PStr uid); ("label", PStr "big")] ∈ branches.
Proof.
  apply (router_branch_label_resolves demo_router_mapping "router1"
           (AutomationNode.mk 12) demo_router demo_branch_big_again).
  - reflexivity.
  - unfold demo_router, demo_branch_big_again. simpl. repeat constructor.
  - discriminate.
Defined.

Lemma shadowed_branch_never_selected_witness :
  EdgeCreate.to_orm_reference_node (EdgeCreate.mk "router1" "big") demo_router_mapping
  ≠ Ok (12, "uid-3").
Proof.
  apply (shadowed_branch_never_selected
           (EdgeCreate.mk "router1" "big") demo_router_mapping (AutomationNode.mk 12)
           demo_router [demo_branch_big; demo_branch_small] demo_branch_big_again []
           demo_branch_big 12).
  - reflexivity.
  - reflexivity.
  - compute_done.
  - discriminate.
  - constructor.
  - reflexivity.
Defined.

(** A [create_row] and a [delete_row] node on the same table. *)
Lemma row_action_service_dicts_equal_iff_same_table_witness :
  Node.to_orm_service_dict (demo_create_row "action1" "trigger1")
  = Node.to_orm_service_dict demo_delete_row.
Proof.
  apply (proj2 (row_action_service_dicts_equal_iff_same_table
                  (demo_create_row "action1" "trigger1") demo_delete_row 999 999
                  eq_refl eq_refl)).
  reflexivity.
Defined.

(** An absent and an empty [cc_emails]. *)
Example demo_email_cc :
  SendEmailActionCreate.to_orm_service_dict (demo_email None)
  = SendEmailActionCreate.to_orm_service_dict (demo_email (Some ""))
  ∧ dict_get "subject" (SendEmailActionCreate.to_orm_service_dict (demo_email None))
    = Some (PStr "'It's done'").
Proof. split; reflexivity. Qed.

(** Choices given for the output type ['text'] are dropped. *)
Example demo_agent_choices :
  AiAgentNodeCreate.to_orm_service_dict (demo_agent OutputType.text (Some ["a"; "b"]))
  = AiAgentNodeCreate.to_orm_service_dict (demo_agent OutputType.text None)
  ∧ dict_get "ai_choices"
      (AiAgentNodeCreate.to_orm_service_dict (demo_agent OutputType.choice None))
    = Some (PList []).
Proof. split; reflexivity. Qed.


Lemma create_workflow_returns_only_for_ordered_refs_witness :
  "action1" ∈ ["trigger1"; "action1"].
Proof.
  refine (create_workflow_returns_only_for_ordered_refs
            demo_create_workflow demo_registry_get demo_create_node
            demo_user demo_automation "Process Orders" demo_trigger
            (WorkflowCreate.nodes demo_workflow) demo_state
            (demo_run demo_workflow demo_state).1 (demo_orm_wf "Process Orders") _
            [demo_create_row "action1" "trigger1"]
            (demo_create_row "action2" "action1") [] _).
  - vm_compute. reflexivity.
  - reflexivity.
Defined.


(** A node on the branch ["medium"], which [demo_router] does not have: the
    workflow, the trigger and the router stay created. *)
Lemma create_workflow_unknown_branch_label_witness :
  demo_run (WorkflowCreate.mk "wf" demo_trigger
                              ([Router demo_router] ++ demo_unknown_branch :: []))
           demo_state
  = ((demo_run_locals (WorkflowCreate.mk "wf" demo_trigger [Router demo_router])
                      demo_state).1,
     Raise (ValueError "Branch label 'medium' not found in previous router node")).
Proof.
  apply (create_workflow_unknown_branch_label
           demo_create_workflow demo_registry_get demo_create_node
           demo_user demo_automation "wf" demo_trigger [Router demo_router]
           demo_unknown_branch [] demo_state _ (demo_orm_wf "wf") demo_router_mapping
           (AutomationNode.mk 12) demo_router).
  - vm_compute. reflexivity.
  - vm_compute. reflexivity.
  - discriminate.
  - compute_done.
Defined.

Example demo_unknown_branch_calls :
  length (calls (demo_run (WorkflowCreate.mk "wf" demo_trigger
                                             [Router demo_router; demo_unknown_branch])
                          demo_state).1)
  = 3%nat.
Proof. vm_compute. reflexivity. Qed.

Lemma create_workflow_host_failure_witness :
  create_workflow demo_refuse_workflow demo_registry_get demo_create_node
                  demo_user demo_automation demo_workflow demo_state
  = (State 10 [CreateWorkflow demo_user 7 "Process Orders"
                              (Raise (ServiceError "PermissionDenied"))],
     Raise (ServiceError "PermissionDenied")).
Proof.
  apply (proj1 (create_workflow_host_failure demo_refuse_workflow demo_registry_get
                  demo_create_node demo_user demo_automation demo_workflow demo_state)).
  reflexivity.
Defined.

Lemma get_workflow_raises_iff_witness :
  (get_workflow demo_missing_workflow 3 demo_user (Workspace.mk 3) demo_state).2
  = Raise (ServiceError "AutomationWorkflowDoesNotExist").
Proof.
  apply (proj2 (get_workflow_raises_iff demo_missing_workflow 3 demo_user
                  (Workspace.mk 3) demo_state
                  (ServiceError "AutomationWorkflowDoesNotExist"))).
  left. reflexivity.
Defined.

Lemma node_mapping_keeps_keys_witness :
  is_Some (demo_action2_mapping !! KStr "trigger1").
Proof.
  apply (node_mapping_keeps_keys demo_create_workflow demo_registry_get demo_create_node
           demo_user demo_automation "Process Orders" demo_trigger
           [demo_create_row "action1" "trigger1"] [demo_create_row "action2" "action1"]
           demo_state
           (demo_run_locals (WorkflowCreate.mk "Process Orders" demo_trigger
                               [demo_create_row "action1" "trigger1"]) demo_state).1
           (demo_run_locals demo_workflow demo_state).1
           (demo_orm_wf "Process Orders") (demo_orm_wf "Process Orders")
           demo_action1_mapping demo_action2_mapping).
  - vm_compute. reflexivity.
  - vm_compute. reflexivity.
  - eexists. vm_compute. reflexivity.
Defined.

Lemma create_workflow_returns_for_ordered_refs_witness :
  ∃ s', demo_run (WorkflowCreate.mk "Process Orders" demo_trigger
                                    (WorkflowCreate.nodes demo_workflow)) demo_state
        = (s', Ok (demo_orm_wf "Process Orders")).
Proof.
  apply (create_workflow_returns_for_ordered_refs
           demo_create_workflow demo_registry_get demo_create_node
           demo_user demo_automation "Process Orders" demo_trigger
           (WorkflowCreate.nodes demo_workflow) demo_state 11
           (demo_orm_wf "Process Orders")).
  - reflexivity.
  - intros args d. by eexists _, _.
  - by eexists.
  - intros n _. by eexists.
  - intros n Hn. simpl in Hn.
    repeat (apply elem_of_cons in Hn as [-> | Hn]; [reflexivity |]).
    by apply elem_of_nil in Hn.
  - intros pre n post Hnodes. simpl in Hnodes.
    destruct pre as [| p1 [| p2 [| p3 pre]]]; simpl in Hnodes.
    + injection Hnodes as <- _. by left.
    + injection Hnodes as <- <- _. right. by left.
    + discriminate Hnodes.
    + discriminate Hnodes.
Defined.

End FurtherWorkedRuns.
